(** * Telegram expense tracker: the message parser and the aggregator

    A shallow embedding of [ExpenseTrackerPython_v4.py]: the expense
    message handler [handle_message], the [/addsalary] handler
    [add_salary], and the aggregation helpers built on the two sheets
    ([calculate_balance], [get_current_month_expenses] and the
    [groupby(...).sum()] calls of the report commands).

    Scope of the model.
    - A text is its UTF-8 bytes. [str.lower], [str.title] and
      [str.split] act on the letters A-Z / a-z and on the ASCII white
      space characters, and leave every byte above 127 as it is; the
      statements that depend on the case of other characters are made
      for ASCII texts. [int(s)] and [float(s)] read ASCII digits.
    - [float(s)] follows Python's grammar for float literals and rounds
      the literal to the nearest binary64 number, ties to even; amounts
      are binary64 numbers and are added and subtracted as such.
    - [Series.sum()] and [GroupBy.sum()] are library code whose order
      of additions is not fixed by this program: they are the
      interface [Pandas], with two implementations given. The loop of
      [show_today_expenses] adds in sheet order.
    - [datetime.now()] is the parameter [today] of the handlers.
    - The two worksheets are lists of typed rows, oldest row first,
      holding what [get_all_records()] hands back. It hands back a
      number for a cell that reads as one; the statements about
      grouping keys are made for keys that are plain text. *)

From Stdlib Require Import ZArith QArith Uint63 Ascii String List Permutation.
From Stdlib Require Import Floats.PrimFloat Floats.SpecFloat Floats.FloatOps.
From stdpp Require Import base option list gmap strings fin_maps.

Open Scope string_scope.
Open Scope list_scope.

(** ** Python string primitives *)

Module Py.

Definition code (c : ascii) : nat := nat_of_ascii c.

(** ASCII characters on which [str.split()] and [str.strip()] cut:
    tab, line feed, vertical tab, form feed, carriage return, the four
    separators 28-31 and the space. *)
Definition is_space (c : ascii) : bool :=
  let n := code c in
  ((9 <=? n)%nat && (n <=? 13)%nat) || ((28 <=? n)%nat && (n <=? 32)%nat).

Definition is_upper (c : ascii) : bool :=
  let n := code c in (65 <=? n)%nat && (n <=? 90)%nat.

Definition is_lower (c : ascii) : bool :=
  let n := code c in (97 <=? n)%nat && (n <=? 122)%nat.

Definition is_digit (c : ascii) : bool :=
  let n := code c in (48 <=? n)%nat && (n <=? 57)%nat.

Definition to_lower (c : ascii) : ascii :=
  if is_upper c then ascii_of_nat (code c + 32) else c.

Definition to_upper (c : ascii) : ascii :=
  if is_lower c then ascii_of_nat (code c - 32) else c.

(** [s.lower()] *)
Fixpoint lower (s : string) : string :=
  match s with
  | EmptyString => EmptyString
  | String c s' => String (to_lower c) (lower s')
  end.

(** [s.title()]: a letter that follows a letter is lowercased, a letter
    that follows anything else (or starts the string) is uppercased. *)
Fixpoint title_from (prev_cased : bool) (s : string) : string :=
  match s with
  | EmptyString => EmptyString
  | String c s' =>
      if is_upper c || is_lower c
      then String (if prev_cased then to_lower c else to_upper c) (title_from true s')
      else String c (title_from false s')
  end.

Definition title (s : string) : string := title_from false s.

(** [s.split()]: maximal runs of non-space characters. [cur] is the
    run being read. *)
Fixpoint split_from (cur : string) (s : string) : list string :=
  match s with
  | EmptyString => match cur with EmptyString => [] | _ => [cur] end
  | String c s' =>
      if is_space c
      then match cur with
           | EmptyString => split_from EmptyString s'
           | _ => cur :: split_from EmptyString s'
           end
      else split_from (cur ++ String c EmptyString) s'
  end.

Definition split (s : string) : list string := split_from EmptyString s.

(** [s.split(sep)] for a one-character separator: empty pieces are kept. *)
Fixpoint split_on_from (sep : ascii) (cur : string) (s : string) : list string :=
  match s with
  | EmptyString => [cur]
  | String c s' =>
      if Ascii.eqb c sep
      then cur :: split_on_from sep EmptyString s'
      else split_on_from sep (cur ++ String c EmptyString) s'
  end.

Definition split_on (sep : ascii) (s : string) : list string :=
  split_on_from sep EmptyString s.

(** [sep.join(l)] *)
Fixpoint join (sep : string) (l : list string) : string :=
  match l with
  | [] => EmptyString
  | [x] => x
  | x :: l' => x ++ sep ++ join sep l'
  end.

(** [s.strip()] *)
Fixpoint lstrip (s : string) : string :=
  match s with
  | EmptyString => EmptyString
  | String c s' => if is_space c then lstrip s' else s
  end.

Fixpoint rstrip (s : string) : string :=
  match s with
  | EmptyString => EmptyString
  | String c s' =>
      match rstrip s' with
      | EmptyString => if is_space c then EmptyString else String c EmptyString
      | r => String c r
      end
  end.

Definition strip (s : string) : string := rstrip (lstrip s).

(** Every character of [s] satisfies [p]. *)
Fixpoint all_chars (p : ascii -> bool) (s : string) : bool :=
  match s with
  | EmptyString => true
  | String c s' => p c && all_chars p s'
  end.

(** [x in l] on a list of strings, and [c in s] for a character *)
Definition contains (x : string) (l : list string) : bool :=
  existsb (String.eqb x) l.

Definition has_char (c : ascii) (s : string) : bool :=
  negb (all_chars (fun c' => negb (Ascii.eqb c' c)) s).

(** [l.index(x)]: the first position of [x], [None] when there is none
    (Python raises [ValueError]). *)
Fixpoint index (x : string) (l : list string) : option nat :=
  match l with
  | [] => None
  | y :: l' => if String.eqb y x then Some 0%nat else S <$> index x l'
  end.

End Py.

(** ** Exceptions *)

Inductive exn : Type :=
| ValueError
| IndexError
| OverflowError
| StoreError.

Inductive result (A : Type) : Type :=
| Ok (a : A)
| Raise (e : exn).
Arguments Ok {A} a.
Arguments Raise {A} e.

(** Sequencing: the first exception raised ends the computation. *)
#[global] Instance result_ret : MRet result := fun A a => Ok a.
#[global] Instance result_bind : MBind result := fun A B k r =>
  match r with
  | Ok a => k a
  | Raise e => Raise e
  end.

(** [l[i]] raises [IndexError] out of range. *)
Definition item {A} (l : list A) (i : nat) : result A :=
  match l !! i with
  | Some a => Ok a
  | None => Raise IndexError
  end.

(** ** Numbers: [int(s)] and [float(s)] *)

Module Num.

Definition digit_val (c : ascii) : Z := Z.of_nat (Py.code c - 48).

(** A digit part is a run of digits in which single underscores may
    separate two digits. The digits read so far are [acc], [n] counts
    them, [after_digit] tells whether the previous character was a
    digit. *)
Fixpoint digitpart_from (after_digit : bool) (acc : Z) (n : nat) (s : string)
  : option (Z * nat) :=
  match s with
  | EmptyString => if after_digit then Some (acc, n) else None
  | String c s' =>
      if Py.is_digit c
      then digitpart_from true (10 * acc + digit_val c)%Z (S n) s'
      else if Ascii.eqb c "_" && after_digit
           then digitpart_from false acc n s'
           else None
  end.

Definition digitpart (s : string) : option (Z * nat) :=
  digitpart_from false 0%Z 0%nat s.

(** An optional sign; [true] is minus. *)
Definition take_sign (s : string) : bool * string :=
  match s with
  | String "-" s' => (true, s')
  | String "+" s' => (false, s')
  | _ => (false, s)
  end.

(** [int(s)] in base ten; [None] is [ValueError]. *)
Definition int_of_string (s : string) : option Z :=
  let (neg, body) := take_sign (Py.strip s) in
  match digitpart body with
  | Some (v, _) => Some (if neg then (- v)%Z else v)
  | None => None
  end.

(** The value of [float(s)]. *)
Inductive pyfloat : Type :=
| Finite (x : float)
| Inf (negative : bool)
| NaN.

(** The piece of [s] before the first character satisfying [p], and the
    piece after it when there is one. *)
Fixpoint cut_at (p : ascii -> bool) (s : string) : string * option string :=
  match s with
  | EmptyString => (EmptyString, None)
  | String c s' =>
      if p c then (EmptyString, Some s')
      else let (a, b) := cut_at p s' in (String c a, b)
  end.

Definition is_exp_mark (c : ascii) : bool := Ascii.eqb c "e" || Ascii.eqb c "E".
Definition is_point (c : ascii) : bool := Ascii.eqb c ".".

(** A number is a digit part, optionally followed by a point and
    optionally by a second digit part, or a point followed by a digit
    part. The result is the integer read off all the digits and the number
    of digits after the point. *)
Definition number (s : string) : option (Z * nat) :=
  match cut_at is_point s with
  | (ip, None) => match digitpart ip with
                  | Some (v, _) => Some (v, 0%nat)
                  | None => None
                  end
  | (ip, Some fp) =>
      match ip, fp with
      | EmptyString, EmptyString => None
      | EmptyString, _ => match digitpart fp with
                          | Some (f, k) => Some (f, k)
                          | None => None
                          end
      | _, EmptyString => match digitpart ip with
                          | Some (v, _) => Some (v, 0%nat)
                          | None => None
                          end
      | _, _ => match digitpart ip, digitpart fp with
                | Some (v, _), Some (f, k) => Some ((v * 10 ^ Z.of_nat k + f)%Z, k)
                | _, _ => None
                end
      end
  end.

(** What follows the exponent mark: an optional sign and a digit part. *)
Definition exponent (s : string) : option Z :=
  let (neg, body) := take_sign s in
  match digitpart body with
  | Some (v, _) => Some (if neg then (- v)%Z else v)
  | None => None
  end.

(** [n / d] rounded to the nearest integer, ties to the even one. *)
Definition round_half_even (n d : Z) : Z :=
  let q := (n / d)%Z in
  let r := (n mod d)%Z in
  match Z.compare (2 * r) d with
  | Lt => q
  | Gt => (q + 1)%Z
  | Eq => if Z.even q then q else (q + 1)%Z
  end.

(** The quotient [n / (d * 2^k)] as a pair of integers. *)
Definition scaled (n d k : Z) : Z * Z :=
  if (0 <=? k)%Z then (n, (d * 2 ^ k)%Z) else ((n * 2 ^ (- k))%Z, d).

(** The binary64 number nearest to [n / d] for positive [n] and [d],
    ties to even: the quotient is scaled to 53 bits (fewer under the
    smallest exponent) and rounded; it is infinite when [n / d] is
    beyond the range. *)
Definition nearest (n d : Z) : float :=
  let t := (Z.log2 n - Z.log2 d)%Z in
  let k1 := (t - 52)%Z in
  let k2 := let (a, b) := scaled n d k1 in
            if (a / b <? 2 ^ 52)%Z then (k1 - 1)%Z else k1 in
  let k := Z.max k2 (-1074) in
  let (a, b) := scaled n d k in
  Z.ldexp (of_uint63 (Uint63.of_Z (round_half_even a b))) k.

(** [m * 10^e] rounded to binary64, for a natural number [m]. The two
    tests on [e] only spare the computation of huge powers of ten. *)
Definition of_decimal (m e : Z) : float :=
  if (m =? 0)%Z then 0%float
  else if (400 <? e)%Z then infinity
  else if (e + Z.log2 m / 3 + 1 <? -400)%Z then 0%float
  else if (0 <=? e)%Z then nearest (m * 10 ^ e) 1
  else nearest m (10 ^ (- e)).

(** An unsigned literal with the digits [m] and the decimal exponent [e]. *)
Definition scale10 (m e : Z) : pyfloat :=
  let x := of_decimal m e in
  if is_infinity x then Inf false else Finite x.

Definition opposite (x : pyfloat) : pyfloat :=
  match x with
  | Finite v => Finite (- v)%float
  | Inf negative => Inf (negb negative)
  | NaN => NaN
  end.

Definition floatnumber (s : string) : option pyfloat :=
  match cut_at is_exp_mark s with
  | (mant, None) =>
      match number mant with
      | Some (m, k) => Some (scale10 m (- Z.of_nat k))
      | None => None
      end
  | (mant, Some ex) =>
      match number mant, exponent ex with
      | Some (m, k), Some e => Some (scale10 m (e - Z.of_nat k))
      | _, _ => None
      end
  end.

(** [float(s)]; [None] is [ValueError]. *)
Definition float_of_string (s : string) : option pyfloat :=
  let (neg, body) := take_sign (Py.strip s) in
  let word := Py.lower body in
  if String.eqb word "inf" || String.eqb word "infinity" then Some (Inf neg)
  else if String.eqb word "nan" then Some NaN
  else match floatnumber body with
       | Some x => Some (if neg then opposite x else x)
       | None => None
       end.

End Num.

Definition value_or_error {A} (o : option A) : result A :=
  match o with
  | Some a => Ok a
  | None => Raise ValueError
  end.

Definition py_int (s : string) : result Z := value_or_error (Num.int_of_string s).
Definition py_float (s : string) : result Num.pyfloat := value_or_error (Num.float_of_string s).

(** ** Calendar dates *)

Record date : Type := mkdate { year : Z; month : Z; day : Z }.

Definition date_eqb (a b : date) : bool :=
  (year a =? year b)%Z && (month a =? month b)%Z && (day a =? day b)%Z.

Definition is_leap (y : Z) : bool :=
  (y mod 4 =? 0)%Z && (negb (y mod 100 =? 0)%Z || (y mod 400 =? 0)%Z).

Definition days_in_month (y m : Z) : Z :=
  match m with
  | 1 | 3 | 5 | 7 | 8 | 10 | 12 => 31
  | 4 | 6 | 9 | 11 => 30
  | 2 => if is_leap y then 29 else 28
  | _ => 0
  end%Z.

(** The day/month/year triples that [datetime(y, m, d)] accepts. *)
Definition valid_date (y m d : Z) : bool :=
  (1 <=? y)%Z && (y <=? 9999)%Z && (1 <=? m)%Z && (m <=? 12)%Z
  && (1 <=? d)%Z && (d <=? days_in_month y m)%Z.

(** The integers that fit the C [int] the constructor converts its
    arguments to. *)
Definition fits_c_int (z : Z) : bool := (- 2 ^ 31 <=? z)%Z && (z <? 2 ^ 31)%Z.

(** [datetime(y, m, d).date()] for a year [y] read from the clock:
    [OverflowError] for a month or day beyond a C [int], [ValueError]
    for a triple outside the calendar. *)
Definition datetime_date (y m d : Z) : result date :=
  if negb (fits_c_int m && fits_c_int d) then Raise OverflowError
  else if valid_date y m d then Ok (mkdate y m d) else Raise ValueError.

(** ** The expense parser (the [try] body of [handle_message]) *)

Definition PAYMENT_METHODS : list string :=
  ["Cash"; "UPI"; "Card"; "Bank Transfer"; "Other"].

(** A [for ... else] loop over [xs]: the body updates the loop state and
    says whether it ran into [break]; the [else] clause runs only when
    the list is exhausted without a [break]. *)
Inductive ctl : Type := Continue | Break.

Fixpoint for_else {S A} (xs : list A) (body : A -> S -> S * ctl)
    (orelse : S -> S) (s : S) : S :=
  match xs with
  | [] => orelse s
  | x :: xs' =>
      match body x s with
      | (s', Break) => s'
      | (s', Continue) => for_else xs' body orelse s'
      end
  end.

(** The loop over [PAYMENT_METHODS] as it is written: the [break] stands
    at the level of the [if], so it ends the loop after the first
    candidate whether or not that candidate matched. *)
Definition match_payment_method (payment_method_raw : string) (payment_method : string)
  : string :=
  for_else PAYMENT_METHODS
    (fun method pm =>
       (if String.eqb (Py.lower payment_method_raw) (Py.lower method) then method else pm,
        Break))
    (fun _ => "Other")
    payment_method.

(** How an attempt to read an expense can end without a row: the two
    replies sent from inside the [try] body before [return], and any
    exception that reaches the outer [except Exception]. *)
Inductive failure : Type :=
| InvalidDate
| InvalidAmount
| Unhandled (e : exn).

Inductive attempt (A : Type) : Type :=
| Parsed (a : A)
| Failed (f : failure).
Arguments Parsed {A} a.
Arguments Failed {A} f.

#[global] Instance attempt_ret : MRet attempt := fun A a => Parsed a.
#[global] Instance attempt_bind : MBind attempt := fun A B k r =>
  match r with
  | Parsed a => k a
  | Failed f => Failed f
  end.

(** A call outside the inner [try] blocks: its exception is unhandled. *)
Definition lift {A} (r : result A) : attempt A :=
  match r with
  | Ok a => Parsed a
  | Raise e => Failed (Unhandled e)
  end.

(** [try: r  except ValueError: reply f; return] *)
Definition except_value_error {A} (r : result A) (f : failure) : attempt A :=
  match r with
  | Ok a => Parsed a
  | Raise ValueError => Failed f
  | Raise e => Failed (Unhandled e)
  end.

Record expense : Type := mkexpense {
  e_date : date;
  e_category : string;
  e_amount : Num.pyfloat;
  e_description : string;
  e_payment_method : string
}.

(** Lines 130-144: the payment method and the tokens left of [via]. *)
Definition parse_payment_method (parts : list string) : result (string * list string) :=
  if Py.contains "via" parts then
    via_index ← value_or_error (Py.index "via" parts);
    let payment_method_raw := Py.strip (Py.join " " (drop (S via_index) parts)) in
    Ok (match_payment_method payment_method_raw "Cash", take via_index parts)
  else Ok ("Cash", parts).

(** Lines 146-157: the date and the tokens that follow it. *)
Definition parse_date (today : date) (parts : list string) : attempt (date * list string) :=
  first ← lift (item parts 0);
  if Py.has_char "/" first && (length (Py.split_on "/" first) =? 2)%nat then
    '(day, month) ← lift (match Py.split_on "/" first with
                          | [a; b] => d ← py_int a; m ← py_int b; Ok (d, m)
                          | _ => Raise ValueError
                          end);
    expense_date ← except_value_error (datetime_date (year today) month day) InvalidDate;
    Parsed (expense_date, drop 1 parts)
  else Parsed (today, parts).

(** Lines 159-167: category, amount and description. *)
Definition parse_fields (parts : list string) : attempt (string * Num.pyfloat * string) :=
  first ← lift (item parts 0);
  let category := Py.title first in
  amount ← except_value_error (second ← item parts 1; py_float second) InvalidAmount;
  let description := if (2 <? length parts)%nat then Py.join " " (drop 2 parts) else "" in
  Parsed (category, amount, description).

(** The whole [try] body up to the row that is handed to the sheet. *)
Definition parse_expense (today : date) (text : string) : attempt expense :=
  let message := Py.lower text in
  let parts := Py.split message in
  '(payment_method, parts) ← lift (parse_payment_method parts);
  '(expense_date, parts) ← parse_date today parts;
  '(category, amount, description) ← parse_fields parts;
  Parsed (mkexpense expense_date category amount description payment_method).

(** ** The ledger: the two worksheets *)

Record expense_row : Type := mkexpense_row {
  Date : date;
  Category : string;
  Amount : float;
  Description : string;
  Payment_Method : string
}.

Record salary_row : Type := mksalary_row {
  s_Date : date;
  s_Amount : float;
  s_Description : string
}.

Record ledger : Type := mkledger {
  expenses_ws : list expense_row;
  salary_ws : list salary_row
}.

(** [ws.append_row(values)] adds one row at the bottom of the sheet.
    The values travel to the sheet as JSON, which has no encoding for
    [inf] and [nan]: for such an amount the request fails and nothing
    is written. *)
Definition cell_of_float (x : Num.pyfloat) : result float :=
  match x with
  | Num.Finite q => Ok q
  | _ => Raise StoreError
  end.

Definition expense_values (e : expense) : result expense_row :=
  q ← cell_of_float (e_amount e);
  Ok (mkexpense_row (e_date e) (e_category e) q (e_description e) (e_payment_method e)).

Definition salary_values (d : date) (amount : Num.pyfloat) (description : string)
  : result salary_row :=
  q ← cell_of_float amount;
  Ok (mksalary_row d q description).

Definition append_expense (l : ledger) (row : expense_row) : ledger :=
  mkledger (expenses_ws l ++ [row]) (salary_ws l).

Definition append_salary (l : ledger) (row : salary_row) : ledger :=
  mkledger (expenses_ws l) (salary_ws l ++ [row]).

(** ** Aggregation *)

(** The sum a loop [total += x] computes, as in
    [show_today_expenses]: binary64 additions from 0 in sheet order. *)
Definition column_sum (col : list float) : float :=
  fold_left PrimFloat.add col 0%float.

(** Compensated summation: next to the running sum a correction term
    is kept, which takes up the rounding error of each addition. *)
Definition kahan_step (acc : float * float) (val : float) : float * float :=
  let (sumx, compensation) := acc in
  let y := (val - compensation)%float in
  let t := (sumx + y)%float in
  (t, (t - sumx - y)%float).

Definition kahan_sum (col : list float) : float :=
  fst (fold_left kahan_step col (0%float, 0%float)).

(** The two reductions of pandas the program calls: [Series.sum()] and
    [GroupBy.sum()], each from a column of binary64 amounts in sheet
    order to a binary64 number. The order of the additions and the use
    of a correction term are the library's choice and not the same in
    all its versions, so they are an interface here. *)
Class Pandas : Type := {
  series_sum : list float -> float;
  group_sum : list float -> float
}.

(** What every such reduction does on a column of at most two cells. *)
Definition adds_short_columns (f : list float -> float) : Prop :=
  f [] = 0%float
  /\ (forall x, f [x] = (0 + x)%float)
  /\ (forall x y, f [x; y] = (0 + x + y)%float).

(** Two implementations: both reductions add in sheet order; or the
    grouped one is compensated. *)
#[global] Instance sequential : Pandas :=
  {| series_sum := column_sum; group_sum := column_sum |}.

Definition compensated : Pandas :=
  {| series_sum := column_sum; group_sum := kahan_sum |}.

(** [calculate_balance()] *)
Definition calculate_balance `{Pandas} (l : ledger) : float :=
  let salary_df := salary_ws l in
  let total_salary :=
    match salary_df with
    | [] => 0%float
    | _ => series_sum (map s_Amount salary_df)
    end in
  let expense_df := expenses_ws l in
  let total_expenses :=
    match expense_df with
    | [] => 0%float
    | _ => series_sum (map Amount expense_df)
    end in
  (total_salary - total_expenses)%float.

(** [d.to_period('M') == now.to_period('M')] *)
Definition same_month (today d : date) : bool :=
  (year d =? year today)%Z && (month d =? month today)%Z.

(** [d.year == current_year] *)
Definition same_year (today d : date) : bool := (year d =? year today)%Z.

(** [get_current_month_expenses()]: the rows of the current month. *)
Definition get_current_month_expenses (today : date) (l : ledger) : list expense_row :=
  match expenses_ws l with
  | [] => []
  | df => filter (fun r => same_month today (Date r) = true) df
  end.

(** [df.groupby(key)['Amount'].sum()]: one entry per key that occurs,
    holding the reduction of the amounts of the rows with that key, in
    sheet order. *)
Definition groupby_sum `{Pandas} (key : expense_row -> string) (df : list expense_row)
  : gmap string float :=
  list_to_map
    (map (fun k => (k, group_sum (map Amount (filter (fun r => key r = k) df))))
         (map key df)).

(** The groupings of [show_balance]. *)
Definition balance_by_category `{Pandas} (today : date) (l : ledger) : gmap string float :=
  groupby_sum Category (get_current_month_expenses today l).

Definition balance_by_payment `{Pandas} (today : date) (l : ledger) : gmap string float :=
  groupby_sum Payment_Method (get_current_month_expenses today l).

(** The groupings of [generate_report]. *)
Definition monthly_by_category `{Pandas} (today : date) (l : ledger) : gmap string float :=
  groupby_sum Category
    (filter (fun r => same_month today (Date r) = true) (expenses_ws l)).

Definition yearly_by_category `{Pandas} (today : date) (l : ledger) : gmap string float :=
  groupby_sum Category
    (filter (fun r => same_year today (Date r) = true) (expenses_ws l)).

(** The rows and the running total of [show_today_expenses]. *)
Definition today_expenses (today : date) (l : ledger) : list expense_row :=
  filter (fun r => date_eqb (Date r) today = true) (expenses_ws l).

Definition today_total (today : date) (l : ledger) : float :=
  fold_left (fun total r => (total + Amount r)%float) (today_expenses today l) 0%float.

(** The grouping of [payment_method_report]: every row, no date filter. *)
Definition payment_dist `{Pandas} (l : ledger) : gmap string float :=
  groupby_sum Payment_Method (expenses_ws l).

(** The four time windows of the reports, and the rows each one keeps. *)
Inductive window : Type := Today | CurrentMonth | CurrentYear | AllTime.

Definition in_window (w : window) (today d : date) : bool :=
  match w with
  | Today => date_eqb d today
  | CurrentMonth => same_month today d
  | CurrentYear => same_year today d
  | AllTime => true
  end.

Definition filter_by_window (w : window) (today : date) (df : list expense_row)
  : list expense_row :=
  filter (fun r => in_window w today (Date r) = true) df.

(** ** The handlers *)

Inductive reply : Type :=
| ExpenseAdded (d : date) (category : string) (amount : float) (payment_method : string)
               (balance : float)
| InvalidDateReply
| InvalidAmountReply
| FormatError (e : exn)
| SalaryUsage
| SalaryAdded (amount : float) (description : string) (balance : float)
| SalaryInvalidAmount
| SalaryError (e : exn).

(** The reply sent for each way the [try] body can end without a row. *)
Definition reply_of_failure (f : failure) : reply :=
  match f with
  | InvalidDate => InvalidDateReply
  | InvalidAmount => InvalidAmountReply
  | Unhandled e => FormatError e
  end.

(** [handle_message]: the ledger after the message and the reply. *)
Definition handle_message `{Pandas} (l : ledger) (today : date) (text : string) : ledger * reply :=
  match parse_expense today text with
  | Failed f => (l, reply_of_failure f)
  | Parsed e =>
      match expense_values e with
      | Raise ex => (l, FormatError ex)
      | Ok row =>
          let l' := append_expense l row in
          let balance := calculate_balance l' in
          (l', ExpenseAdded (Date row) (Category row) (Amount row) (Payment_Method row) balance)
      end
  end.

(** [add_salary]: [args] are the words after the command. *)
Definition add_salary `{Pandas} (l : ledger) (today : date) (args : list string) : ledger * reply :=
  match args with
  | [] => (l, SalaryUsage)
  | _ =>
      match (first ← item args 0; py_float first) with
      | Raise ValueError => (l, SalaryInvalidAmount)
      | Raise ex => (l, SalaryError ex)
      | Ok amount =>
          let description :=
            if (1 <? length args)%nat then Py.join " " (drop 1 args) else "Monthly Salary" in
          match salary_values today amount description with
          | Raise ex => (l, SalaryError ex)
          | Ok row =>
              let l' := append_salary l row in
              let balance := calculate_balance l' in
              (l', SalaryAdded (s_Amount row) (s_Description row) balance)
          end
      end
  end.

(** ** The specification's side of the comparisons *)

(** The specification's date-shaped token: exactly one [/], splitting
    the token into two numeric parts. *)
Definition spec_date_shaped (token : string) : bool :=
  match Py.split_on "/" token with
  | [a; b] => bool_decide (is_Some (Num.int_of_string a))
              && bool_decide (is_Some (Num.int_of_string b))
  | _ => false
  end.

(** The specification's statement about a message [text] whose first
    remaining token is [first]: when [first] is not date-shaped the
    message parses, dated with the reference date, and [first] gives
    the category. *)
Definition spec_undated_message (today : date) (text first : string) : Prop :=
  spec_date_shaped first = false ->
  exists e, parse_expense today text = Parsed e
            /\ e_date e = today /\ e_category e = Py.title first.

(** The specification's salary description: the words after the amount
    joined with spaces, "Monthly Salary" when there are none. *)
Definition spec_salary_description (args : list string) : string :=
  match args with
  | _ :: (_ :: _) as rest => Py.join " " rest
  | _ => "Monthly Salary"
  end.

(** The number a binary64 value stands for (0 for what is not finite). *)
Definition exact_value (x : float) : Q :=
  match Prim2SF x with
  | S754_finite negative m e =>
      let v := (inject_Z (Zpos m) * (2 # 1) ^ e)%Q in
      if negative then (- v)%Q else v
  | _ => 0%Q
  end.

(** The specification's balance: the sum of the salary amounts minus the
    sum of the expense amounts, as numbers. *)
Definition spec_sum (amounts : list float) : Q :=
  fold_right (fun x acc => (exact_value x + acc)%Q) 0%Q amounts.

Definition spec_balance (l : ledger) : Q :=
  (spec_sum (map s_Amount (salary_ws l)) - spec_sum (map Amount (expenses_ws l)))%Q.

(** The total of a group of rows: nothing for a key without rows. *)
Definition group_total `{Pandas} (rows : list expense_row) : option float :=
  match rows with
  | [] => None
  | _ => Some (group_sum (map Amount rows))
  end.

(** ** The read-only commands *)

(** [show_balance]: the balance, and the two breakdowns of the month
    or the notice that the month has no expenses. *)
Inductive balance_summary : Type :=
| MonthBreakdown (balance : float) (by_category by_payment : gmap string float)
| NoMonthExpenses (balance : float).

Definition show_balance `{Pandas} (today : date) (l : ledger) : balance_summary :=
  let balance := calculate_balance l in
  let monthly_expenses := get_current_month_expenses today l in
  match monthly_expenses with
  | [] => NoMonthExpenses balance
  | _ => MonthBreakdown balance (groupby_sum Category monthly_expenses)
                        (groupby_sum Payment_Method monthly_expenses)
  end.

(** [show_today_expenses]: the rows of today in sheet order with their
    running total, or one of the two notices. *)
Inductive today_summary : Type :=
| NoExpensesYet
| NoExpensesToday
| TodayExpenses (rows : list expense_row) (total : float).

Definition show_today_expenses (today : date) (l : ledger) : today_summary :=
  match expenses_ws l with
  | [] => NoExpensesYet
  | _ =>
      match today_expenses today l with
      | [] => NoExpensesToday
      | rows => TodayExpenses rows (today_total today l)
      end
  end.

(** ** The worksheets of the spreadsheet *)

Definition EXPENSES_SHEET : string := "Expenses".
Definition SALARY_SHEET : string := "Salary".

Definition EXPENSES_HEADERS : list string :=
  ["Date"; "Category"; "Amount (₹)"; "Description"; "Payment Method"].
Definition SALARY_HEADERS : list string := ["Date"; "Amount (₹)"; "Description"].

(** A spreadsheet maps the title of a worksheet to its rows of cells.
    [get_or_create_worksheet]: the worksheet of that title when there
    is one ([WorksheetNotFound] otherwise), else a new worksheet whose
    only row is the header row. The result is the spreadsheet
    afterwards and the rows of the worksheet. *)
Definition get_or_create_worksheet (spreadsheet : gmap string (list (list string)))
    (title : string) (headers : list string)
  : gmap string (list (list string)) * list (list string) :=
  match spreadsheet !! title with
  | Some worksheet => (spreadsheet, worksheet)
  | None => (<[title := [headers]]> spreadsheet, [headers])
  end.

(** Lines 72-76: the two worksheets are looked up or created in turn. *)
Definition init_worksheets (spreadsheet : gmap string (list (list string)))
  : gmap string (list (list string)) :=
  let (spreadsheet1, _) := get_or_create_worksheet spreadsheet EXPENSES_SHEET EXPENSES_HEADERS in
  let (spreadsheet2, _) := get_or_create_worksheet spreadsheet1 SALARY_SHEET SALARY_HEADERS in
  spreadsheet2.

(** ** Sequences of updates *)

(** The two updates that write to the ledger, as [main] dispatches
    them: a text that is not a command, and [/addsalary]. *)
Inductive event : Type :=
| Message (today : date) (text : string)
| AddSalary (today : date) (args : list string).

Definition step `{Pandas} (l : ledger) (ev : event) : ledger :=
  match ev with
  | Message today text => fst (handle_message l today text)
  | AddSalary today args => fst (add_salary l today args)
  end.

Definition run `{Pandas} (l : ledger) (events : list event) : ledger := fold_left step events l.

Definition event_date (ev : event) : date :=
  match ev with
  | Message today _ => today
  | AddSalary today _ => today
  end.

(** ** Auxiliary notions for the statements *)

(** The tokens the parser keeps: those left of the first [via]. *)
Definition tokens_before_via (parts : list string) : list string :=
  match Py.index "via" parts with
  | Some via_index => take via_index parts
  | None => parts
  end.

(** A token as [split()] produces them: not empty, no white space. *)
Definition is_token (tok : string) : Prop :=
  tok <> "" /\ Py.all_chars (fun c => negb (Py.is_space c)) tok = true.

Definition is_calendar_date (d : date) : Prop :=
  valid_date (year d) (month d) (day d) = true.

#[global] Instance date_eq_dec : EqDecision date.
Proof. solve_decision. Defined.

(** The characters of a digit part. *)
Definition digit_or_underscore (c : ascii) : bool := Py.is_digit c || Ascii.eqb c "_".

(** A text of ASCII characters only. *)
Definition is_ascii (s : string) : bool :=
  Py.all_chars (fun c => (Py.code c <? 128)%nat) s.

(** A cell that [get_all_records()] hands back as the text it holds:
    it is of ASCII characters and neither an [int] nor a [float]
    literal. *)
Definition plain_text (s : string) : Prop :=
  is_ascii s = true /\ Num.int_of_string s = None /\ Num.float_of_string s = None.

(** The binary64 number nearest to an integer (infinite beyond the
    range). *)
Definition nearest_float (z : Z) : Num.pyfloat :=
  if (z <? 0)%Z then Num.opposite (Num.scale10 (- z) 0) else Num.scale10 z 0.

(** The mathematical bold capitals U+1D400 to U+1D419 in UTF-8: letters
    of the category Lu that [str.lower()] leaves as they are. *)
Fixpoint has_bold_capital (s : string) : bool :=
  match s with
  | String a ((String b (String c (String e _))) as rest) =>
      ((Py.code a =? 240)%nat && (Py.code b =? 157)%nat && (Py.code c =? 144)%nat
       && (128 <=? Py.code e)%nat && (Py.code e <=? 153)%nat)
      || has_bold_capital rest
  | _ => false
  end.

(** The specification's "not entirely lowercase", as far as it is
    needed: an ASCII capital or a mathematical bold capital occurs. *)
Definition spec_has_uppercase (s : string) : bool :=
  negb (Py.all_chars (fun c => negb (Py.is_upper c)) s) || has_bold_capital s.

(** What every expense row written by [handle_message] for a message
    of ASCII characters looks like. *)
Definition written_by_handler (r : expense_row) : Prop :=
  Payment_Method r = "Cash"
  /\ is_ascii (Category r) = true
  /\ Py.title (Category r) = Category r
  /\ is_ascii (Description r) = true
  /\ Py.all_chars (fun c => negb (Py.is_upper c)) (Description r) = true
  /\ is_calendar_date (Date r).

(** An update whose message, if it has one, is of ASCII characters. *)
Definition ascii_event (ev : event) : Prop :=
  match ev with
  | Message _ text => is_ascii text = true
  | AddSalary _ _ => True
  end.
(** * Properties *)

(** ** Sanity checks of the primitives *)

Example lower_ex : Py.lower "Food 250 LUNCH via UPI" = "food 250 lunch via upi".
Proof. reflexivity. Qed.

Example title_ex :
  map Py.title ["food"; "a/b"; "f00d"; "it's"] = ["Food"; "A/B"; "F00D"; "It'S"].
Proof. reflexivity. Qed.

Example split_ex : Py.split "  food   250 lunch " = ["food"; "250"; "lunch"].
Proof. reflexivity. Qed.

Example split_on_ex :
  map (Py.split_on "/") ["15/05"; "/"; "a"; "1/2/3"]
  = [["15"; "05"]; [""; ""]; ["a"]; ["1"; "2"; "3"]].
Proof. reflexivity. Qed.

Example int_ex :
  map Num.int_of_string ["05"; "-5"; "1_5"; "a"; ""; "1__5"; "+7"]
  = [Some 5%Z; Some (-5)%Z; Some 15%Z; None; None; None; Some 7%Z].
Proof. reflexivity. Qed.

Example float_ex :
  map Num.float_of_string
      ["250"; "-5"; "1e3"; "1."; "."; "abc"; "nan"; "-inf"; "0"; "1e"; "e5"; "--1";
       "250.0"; ".5"; "1_0.5e1"; "1e400"; "-1e400"; "9007199254740993"; "1e-400"]
  = [Some (Num.Finite 250); Some (Num.Finite (-5)); Some (Num.Finite 1000);
     Some (Num.Finite 1); None; None; Some Num.NaN; Some (Num.Inf true);
     Some (Num.Finite 0); None; None; None;
     Some (Num.Finite 250); Some (Num.Finite 0.5); Some (Num.Finite 105);
     Some (Num.Inf false); Some (Num.Inf true); Some (Num.Finite 9007199254740992);
     Some (Num.Finite 0)]%float.
Proof. vm_compute. reflexivity. Qed.

(** Sums of decimal fractions round: 0.1 + 0.2 is not 0.3. *)
Example float_sum_ex :
  match Num.float_of_string "0.1", Num.float_of_string "0.2", Num.float_of_string "0.3" with
  | Some (Num.Finite a), Some (Num.Finite b), Some (Num.Finite c) =>
      PrimFloat.eqb (a + b) c = false /\ PrimFloat.ltb c (a + b) = true
  | _, _, _ => False
  end.
Proof. vm_compute. split; reflexivity. Qed.

Example leap_ex :
  map (fun y => valid_date y 2 29) [2024; 2023; 1900; 2000]%Z = [true; false; false; true].
Proof. reflexivity. Qed.

(** ** Characters and tokens *)

Lemma to_lower_not_upper c : Py.is_upper (Py.to_lower c) = false.
Proof. destruct c as [[] [] [] [] [] [] [] []]; reflexivity. Qed.

Lemma all_chars_lower s :
  Py.all_chars (fun c => negb (Py.is_upper c)) (Py.lower s) = true.
Proof.
  induction s as [|c s IH]; simpl; [reflexivity|].
  rewrite to_lower_not_upper, IH. reflexivity.
Qed.

Lemma str_app_cons c (s t : string) : (String c s ++ t)%string = String c (s ++ t).
Proof. reflexivity. Qed.

Lemma str_app_nil_r (s : string) : (s ++ "")%string = s.
Proof. induction s as [|c s IH]; [reflexivity|]. now rewrite str_app_cons, IH. Qed.

Lemma str_app_assoc (s t u : string) : ((s ++ t) ++ u)%string = (s ++ t ++ u)%string.
Proof. induction s as [|c s IH]; [reflexivity|]. now rewrite !str_app_cons, IH. Qed.

Lemma all_chars_app p s t :
  Py.all_chars p (s ++ t)%string = Py.all_chars p s && Py.all_chars p t.
Proof.
  induction s as [|c s IH]; [reflexivity|].
  rewrite str_app_cons. simpl. rewrite IH. apply andb_assoc.
Qed.

Lemma split_from_all_chars p s : forall cur,
  Py.all_chars p cur = true -> Py.all_chars p s = true ->
  Forall (fun tok => Py.all_chars p tok = true) (Py.split_from cur s).
Proof.
  induction s as [|c s IH]; intros cur Hcur Hs; simpl in *.
  - destruct cur; [constructor|]. constructor; [exact Hcur|constructor].
  - apply andb_prop in Hs as [Hc Hs].
    destruct (Py.is_space c).
    + destruct cur.
      * apply IH; auto.
      * constructor; [exact Hcur|]. apply IH; auto.
    + apply IH; [|exact Hs].
      rewrite all_chars_app, Hcur. simpl. rewrite Hc. reflexivity.
Qed.

Lemma split_all_chars p s :
  Py.all_chars p s = true ->
  Forall (fun tok => Py.all_chars p tok = true) (Py.split s).
Proof. intros H. apply split_from_all_chars; [reflexivity|exact H]. Qed.

Lemma join_all_chars p l :
  p " "%char = true ->
  Forall (fun tok => Py.all_chars p tok = true) l ->
  Py.all_chars p (Py.join " " l) = true.
Proof.
  intros Hsp. induction 1 as [|x l Hx Hl IH]; [reflexivity|].
  destruct l as [|y l']; [exact Hx|].
  change (Py.join " " (x :: y :: l')) with (x ++ " " ++ Py.join " " (y :: l'))%string.
  rewrite !all_chars_app, Hx, IH. simpl. rewrite Hsp. reflexivity.
Qed.

(** A token without the separator is not cut. *)
Lemma split_on_from_no_sep sep s : forall cur,
  Py.has_char sep s = false -> Py.split_on_from sep cur s = [(cur ++ s)%string].
Proof.
  unfold Py.has_char.
  induction s as [|c s IH]; intros cur H; simpl in *.
  - now rewrite str_app_nil_r.
  - apply negb_false_iff in H. apply andb_prop in H as [Hc Hs].
    apply negb_true_iff in Hc. rewrite Hc.
    rewrite IH by (now rewrite Hs).
    now rewrite str_app_assoc.
Qed.

Lemma split_on_two_has_sep sep s a b :
  Py.split_on sep s = [a; b] -> Py.has_char sep s = true.
Proof.
  intros H. destruct (Py.has_char sep s) eqn:E; [reflexivity|].
  unfold Py.split_on in H. rewrite split_on_from_no_sep in H by exact E.
  discriminate.
Qed.

(** ** The stages of the parser *)

(** As the loop is written, a [via] clause never changes the default. *)
Lemma match_payment_method_cash raw : match_payment_method raw "Cash" = "Cash".
Proof.
  unfold match_payment_method, PAYMENT_METHODS. simpl.
  destruct (String.eqb (Py.lower raw) _); reflexivity.
Qed.

Lemma parse_payment_method_inv parts pm parts' :
  parse_payment_method parts = Ok (pm, parts') ->
  pm = "Cash"
  /\ ((Py.contains "via" parts = false /\ parts' = parts)
      \/ exists i, Py.index "via" parts = Some i /\ parts' = take i parts).
Proof.
  unfold parse_payment_method.
  destruct (Py.contains "via" parts).
  - destruct (Py.index "via" parts) as [i|]; simpl; [|discriminate].
    intros H. injection H as <- <-.
    split; [apply match_payment_method_cash|]. right. exists i. auto.
  - intros H. injection H as <- <-. auto.
Qed.

Lemma parse_fields_inv parts category amount description :
  parse_fields parts = Parsed (category, amount, description) ->
  exists first second,
    parts !! 0%nat = Some first /\ parts !! 1%nat = Some second
    /\ category = Py.title first
    /\ Num.float_of_string second = Some amount
    /\ description = (if (2 <? length parts)%nat then Py.join " " (drop 2 parts) else "").
Proof.
  unfold parse_fields, item, py_float, value_or_error.
  destruct (parts !! 0%nat) as [first|]; simpl; [|discriminate].
  destruct (parts !! 1%nat) as [second|]; simpl; [|discriminate].
  destruct (Num.float_of_string second) as [a|] eqn:Ha; simpl; [|discriminate].
  intros H. injection H as <- <- <-. exists first, second. rewrite Ha.
  repeat split; reflexivity.
Qed.

Lemma parse_date_inv today parts d parts' :
  parse_date today parts = Parsed (d, parts') ->
  exists first, parts !! 0%nat = Some first
    /\ ((length (Py.split_on "/" first) <> 2%nat /\ d = today /\ parts' = parts)
        \/ exists a b dd mm,
             Py.split_on "/" first = [a; b]
             /\ Num.int_of_string a = Some dd /\ Num.int_of_string b = Some mm
             /\ valid_date (year today) mm dd = true
             /\ d = mkdate (year today) mm dd /\ parts' = drop 1 parts).
Proof.
  unfold parse_date, item.
  destruct (parts !! 0%nat) as [first|]; simpl; [|discriminate].
  intros H. exists first. split; [reflexivity|].
  destruct (Py.has_char "/" first) eqn:Hc; simpl in H.
  - destruct (Py.split_on "/" first) as [|a [|b [|c l]]] eqn:Hs; simpl in H;
      try (injection H as <- <-; left; repeat split; auto; discriminate).
    unfold py_int, value_or_error in H.
    destruct (Num.int_of_string a) as [dd|] eqn:Ha; simpl in H; [|discriminate].
    destruct (Num.int_of_string b) as [mm|] eqn:Hb; simpl in H; [|discriminate].
    unfold datetime_date in H.
    destruct (negb _); simpl in H; [discriminate|].
    destruct (valid_date (year today) mm dd) eqn:Hv; simpl in H; [|discriminate].
    injection H as <- <-. right. exists a, b, dd, mm. auto 10.
  - injection H as <- <-. left. repeat split; auto.
    intros Hlen.
    destruct (Py.split_on "/" first) as [|a [|b [|c l]]] eqn:Hs; try discriminate.
    apply split_on_two_has_sep in Hs. congruence.
Qed.

Lemma parse_expense_inv today text e :
  parse_expense today text = Parsed e ->
  exists parts1 parts2,
    parse_payment_method (Py.split (Py.lower text)) = Ok (e_payment_method e, parts1)
    /\ parse_date today parts1 = Parsed (e_date e, parts2)
    /\ parse_fields parts2 = Parsed (e_category e, e_amount e, e_description e).
Proof.
  unfold parse_expense.
  destruct (parse_payment_method (Py.split (Py.lower text))) as [[pm parts1]|]; simpl;
    [|discriminate].
  destruct (parse_date today parts1) as [[d parts2]|] eqn:Hd; simpl; [|discriminate].
  destruct (parse_fields parts2) as [[[c a] ds]|] eqn:Hf; simpl; [|discriminate].
  intros H. injection H as <-. simpl. exists parts1, parts2.
  rewrite Hd, Hf. repeat split; reflexivity.
Qed.

Lemma parse_date_day_month today first rest a b dd mm :
  Py.split_on "/" first = [a; b] ->
  Num.int_of_string a = Some dd -> Num.int_of_string b = Some mm ->
  parse_date today (first :: rest)
  = if negb (fits_c_int mm && fits_c_int dd)
    then Failed (Unhandled OverflowError)
    else if valid_date (year today) mm dd
         then Parsed (mkdate (year today) mm dd, rest)
         else Failed InvalidDate.
Proof.
  intros Hs Ha Hb. unfold parse_date, item. simpl.
  rewrite (split_on_two_has_sep _ _ _ _ Hs), Hs. simpl.
  unfold py_int, value_or_error. rewrite Ha, Hb. simpl.
  unfold datetime_date. destruct (negb _); [reflexivity|].
  destruct (valid_date (year today) mm dd); reflexivity.
Qed.

(** Months and days of the calendar fit a C [int]. *)
Lemma valid_date_fits y m d : valid_date y m d = true ->
  fits_c_int m && fits_c_int d = true.
Proof.
  unfold valid_date, fits_c_int. intros H.
  repeat (apply andb_prop in H as [H ?]).
  assert (Hd : (days_in_month y m <= 31)%Z).
  { unfold days_in_month.
    repeat match goal with
           | |- context [match ?x with _ => _ end] => destruct x
           end; lia. }
  repeat (apply andb_true_intro; split); lia.
Qed.

Lemma parse_date_plain today first rest :
  length (Py.split_on "/" first) <> 2%nat ->
  parse_date today (first :: rest) = Parsed (today, first :: rest).
Proof.
  intros Hlen. unfold parse_date, item. simpl.
  destruct (Nat.eqb_spec (length (Py.split_on "/" first)) 2) as [E|_]; [contradiction|].
  rewrite andb_false_r. reflexivity.
Qed.

Lemma february_31 y : valid_date y 2 31 = false.
Proof.
  unfold valid_date, days_in_month.
  destruct (is_leap y); simpl; rewrite !andb_false_r; reflexivity.
Qed.

Lemma parse_expense_31_02 today :
  parse_expense today "31/02 food 100" = Failed InvalidDate.
Proof.
  unfold parse_expense.
  change (parse_payment_method (Py.split (Py.lower "31/02 food 100")))
    with (Ok ("Cash", ["31/02"; "food"; "100"])).
  simpl mbind.
  rewrite (parse_date_day_month today "31/02" ["food"; "100"] "31" "02" 31 2)
    by reflexivity.
  change (fits_c_int 2 && fits_c_int 31) with true. cbv iota beta delta [negb].
  rewrite february_31. reflexivity.
Qed.

(** ** The claims about the parser *)

(** C1, the code as it is written: a recognised method after [via] is
    not returned and an unknown one does not become "Other"; both
    messages are stored with the payment method "Cash". *)
Theorem C1_via_clause_yields_cash (today : date) :
  parse_expense today "food 250 lunch via UPI"
  = Parsed (mkexpense today "Food" (Num.Finite 250) "lunch" "Cash")
  /\ parse_expense today "food 250 lunch via XYZ"
     = Parsed (mkexpense today "Food" (Num.Finite 250) "lunch" "Cash").
Proof. split; vm_compute; reflexivity. Qed.

(** C2: a message without the token [via] is stored with the payment
    method "Cash"; "food 250 lunch" parses to category "Food", amount
    250, description "lunch", payment method "Cash" and the reference
    date. *)
Theorem C2_no_via_defaults_to_cash :
  (forall today text e,
      Py.contains "via" (Py.split (Py.lower text)) = false ->
      parse_expense today text = Parsed e ->
      e_payment_method e = "Cash")
  /\ (forall today,
         parse_expense today "food 250 lunch"
         = Parsed (mkexpense today "Food" (Num.Finite 250) "lunch" "Cash")).
Proof.
  split.
  - intros today text e _ H.
    apply parse_expense_inv in H as (parts1 & parts2 & Hp & _ & _).
    apply parse_payment_method_inv in Hp as [Hpm _]. exact Hpm.
  - intros today. vm_compute. reflexivity.
Qed.

Lemma C2_witness :
  Py.contains "via" (Py.split (Py.lower "Tea 20 with biscuits")) = false
  /\ parse_expense (mkdate 2024 3 9) "Tea 20 with biscuits"
     = Parsed (mkexpense (mkdate 2024 3 9) "Tea" (Num.Finite (20%float)) "with biscuits" "Cash")
  /\ e_payment_method
       (mkexpense (mkdate 2024 3 9) "Tea" (Num.Finite (20%float)) "with biscuits" "Cash")
     = "Cash".
Proof.
  split; [reflexivity|]. split; [vm_compute; reflexivity|].
  apply (proj1 C2_no_via_defaults_to_cash (mkdate 2024 3 9) "Tea 20 with biscuits").
  - reflexivity.
  - vm_compute; reflexivity.
Defined.




(** C4 as stated fails on "a/b 100 snack": the first token "a/b" is not
    date-shaped, yet the message is not parsed; [int("a")] raises the
    [ValueError] that ends in the generic error reply. *)
Lemma C4_counterexample :
  spec_date_shaped "a/b" = false
  /\ parse_expense (mkdate 2024 3 9) "a/b 100 snack" = Failed (Unhandled ValueError)
  /\ ~ spec_undated_message (mkdate 2024 3 9) "a/b 100 snack" "a/b".
Proof.
  split; [reflexivity|]. split; [reflexivity|].
  intros H. destruct (H eq_refl) as (e & He & _). discriminate He.
Qed.

(** C4, amended: a first token that does not split at [/] into exactly
    two pieces leaves the date at the reference date and is not
    consumed, so it is the token the category is made from; a token
    with exactly one [/] is always taken for a date, and when one of
    its two pieces is not an integer literal the attempt ends with
    the [ValueError] of the generic error reply. *)
Theorem C4_token_without_single_slash :
  (forall today first rest,
      length (Py.split_on "/" first) <> 2%nat ->
      parse_date today (first :: rest) = Parsed (today, first :: rest)
      /\ (forall category amount description,
             parse_fields (first :: rest) = Parsed (category, amount, description) ->
             category = Py.title first))
  /\ (forall today first rest a b,
         Py.split_on "/" first = [a; b] ->
         Num.int_of_string a = None \/ Num.int_of_string b = None ->
         parse_date today (first :: rest) = Failed (Unhandled ValueError)).
Proof.
  split.
  - intros today first rest Hlen. split; [now apply parse_date_plain|].
    intros c a d H. apply parse_fields_inv in H as (f & s & Hf & _ & Hc & _).
    simpl in Hf. injection Hf as <-. exact Hc.
  - intros today first rest a b Hs Hint. unfold parse_date, item. simpl.
    rewrite (split_on_two_has_sep _ _ _ _ Hs), Hs. simpl.
    unfold py_int, value_or_error.
    destruct Hint as [Ha|Hb].
    + rewrite Ha. reflexivity.
    + rewrite Hb. destruct (Num.int_of_string a); reflexivity.
Qed.

Lemma C4_witness :
  length (Py.split_on "/" "food") <> 2%nat
  /\ parse_date (mkdate 2024 3 9) ["food"; "250"] = Parsed (mkdate 2024 3 9, ["food"; "250"])
  /\ Py.split_on "/" "a/b" = ["a"; "b"]
  /\ Num.int_of_string "a" = None
  /\ parse_date (mkdate 2024 3 9) ["a/b"; "100"] = Failed (Unhandled ValueError).
Proof.
  split; [discriminate|]. split.
  - apply (proj1 C4_token_without_single_slash (mkdate 2024 3 9) "food" ["250"]).
    discriminate.
  - split; [reflexivity|]. split; [reflexivity|].
    apply (proj2 C4_token_without_single_slash (mkdate 2024 3 9) "a/b" ["100"] "a" "b").
    + reflexivity.
    + left. reflexivity.
Defined.
(** ** The claims about the handlers *)

Lemma handle_message_failed `{pd : Pandas} l today text f :
  parse_expense today text = Failed f ->
  handle_message l today text = (l, reply_of_failure f).
Proof. intros H. unfold handle_message. rewrite H. reflexivity. Qed.

Lemma handle_message_cases `{pd : Pandas} l today text :
  fst (handle_message l today text) = l
  \/ exists e q,
       parse_expense today text = Parsed e /\ e_amount e = Num.Finite q
       /\ fst (handle_message l today text)
          = append_expense l (mkexpense_row (e_date e) (e_category e) q
                                            (e_description e) (e_payment_method e)).
Proof.
  unfold handle_message.
  destruct (parse_expense today text) as [e|f]; [|left; reflexivity].
  unfold expense_values, cell_of_float.
  destruct (e_amount e) as [q| |] eqn:Ha; simpl; try (left; reflexivity).
  right. exists e, q. auto.
Qed.

Lemma parse_fields_bad_amount first tok rest :
  Num.float_of_string tok = None ->
  parse_fields (first :: tok :: rest) = Failed InvalidAmount.
Proof.
  intros H. unfold parse_fields, item, py_float, value_or_error. simpl.
  rewrite H. reflexivity.
Qed.

Lemma add_salary_bad_amount `{pd : Pandas} l today tok rest :
  Num.float_of_string tok = None ->
  add_salary l today (tok :: rest) = (l, SalaryInvalidAmount).
Proof.
  intros H. unfold add_salary, item, py_float, value_or_error. simpl.
  rewrite H. reflexivity.
Qed.

Lemma add_salary_cases `{pd : Pandas} l today tok rest :
  fst (add_salary l today (tok :: rest)) = l
  \/ exists q,
       Num.float_of_string tok = Some (Num.Finite q)
       /\ add_salary l today (tok :: rest)
          = (append_salary l (mksalary_row today q (spec_salary_description (tok :: rest))),
             SalaryAdded q (spec_salary_description (tok :: rest))
               (calculate_balance
                  (append_salary l
                     (mksalary_row today q (spec_salary_description (tok :: rest)))))).
Proof.
  unfold add_salary, item, py_float, value_or_error. simpl.
  destruct (Num.float_of_string tok) as [[q| |]|] eqn:Hf; simpl; try (left; reflexivity).
  right. exists q. split; [reflexivity|].
  destruct rest; reflexivity.
Qed.

(** C5 as stated fails: "food -5 refund" is stored as an expense of -5
    and [/addsalary 0] as a salary of 0; neither amount is positive. *)
Lemma C5_counterexample :
  fst (handle_message (mkledger [] []) (mkdate 2024 3 9) "food -5 refund")
  = mkledger [mkexpense_row (mkdate 2024 3 9) "Food" ((-5)%float) "refund" "Cash"] []
  /\ fst (add_salary (mkledger [] []) (mkdate 2024 3 9) ["0"])
     = mkledger [] [mksalary_row (mkdate 2024 3 9) 0 "Monthly Salary"]
  /\ PrimFloat.ltb 0 (-5) = false /\ PrimFloat.ltb 0 0 = false.
Proof. repeat split; vm_compute; reflexivity. Qed.

(** C5, amended: both handlers turn away an amount token that is not a
    float literal, with the invalid amount reply and without touching
    the ledger; whenever a handler changes the ledger it appends one
    row, and the amount of that row is the finite value of the amount
    token. The sign of the amount is not looked at. *)
Theorem C5_numeric_amounts_only `{pd : Pandas} :
  (forall first tok rest,
      Num.float_of_string tok = None ->
      parse_fields (first :: tok :: rest) = Failed InvalidAmount)
  /\ (forall l today text,
         parse_expense today text = Failed InvalidAmount ->
         handle_message l today text = (l, InvalidAmountReply))
  /\ (forall l today text,
         fst (handle_message l today text) = l
         \/ exists e q parts tok,
              parse_expense today text = Parsed e
              /\ parse_fields parts = Parsed (e_category e, e_amount e, e_description e)
              /\ parts !! 1%nat = Some tok
              /\ Num.float_of_string tok = Some (Num.Finite q)
              /\ fst (handle_message l today text)
                 = append_expense l (mkexpense_row (e_date e) (e_category e) q
                                                   (e_description e) (e_payment_method e)))
  /\ (forall l today tok rest,
         Num.float_of_string tok = None ->
         add_salary l today (tok :: rest) = (l, SalaryInvalidAmount))
  /\ (forall l today tok rest,
         fst (add_salary l today (tok :: rest)) = l
         \/ exists q description,
              Num.float_of_string tok = Some (Num.Finite q)
              /\ fst (add_salary l today (tok :: rest))
                 = append_salary l (mksalary_row today q description)).
Proof.
  split; [exact parse_fields_bad_amount|].
  split; [intros l today text H; now rewrite (handle_message_failed l today text _ H)|].
  split.
  - intros l today text.
    destruct (handle_message_cases l today text) as [H|(e & q & He & Hq & Hl)];
      [left; exact H|right].
    destruct (parse_expense_inv today text e He) as (parts1 & parts2 & _ & _ & Hf).
    destruct (parse_fields_inv _ _ _ _ Hf) as (f & s & _ & Hs & _ & Ha & _).
    exists e, q, parts2, s. rewrite <- Hq. auto 10.
  - split; [exact add_salary_bad_amount|].
    intros l today tok rest.
    destruct (add_salary_cases l today tok rest) as [H|(q & Hq & Hl)];
      [left; exact H|right].
    exists q, (spec_salary_description (tok :: rest)). rewrite Hl. auto.
Qed.

Lemma C5_witness :
  Num.float_of_string "abc" = None
  /\ parse_fields ["food"; "abc"; "desc"] = Failed InvalidAmount
  /\ parse_expense (mkdate 2024 3 9) "food abc desc" = Failed InvalidAmount
  /\ handle_message (mkledger [] []) (mkdate 2024 3 9) "food abc desc"
     = (mkledger [] [], InvalidAmountReply)
  /\ add_salary (mkledger [] []) (mkdate 2024 3 9) ["abc"; "bonus"]
     = (mkledger [] [], SalaryInvalidAmount).
Proof.
  split; [reflexivity|]. split.
  - apply (proj1 C5_numeric_amounts_only "food" "abc" ["desc"]). reflexivity.
  - split; [reflexivity|]. split.
    + apply (proj1 (proj2 C5_numeric_amounts_only)). reflexivity.
    + apply (proj1 (proj2 (proj2 (proj2 C5_numeric_amounts_only)))). reflexivity.
Defined.

(** C7: a successful [/addsalary] appends one salary row dated with the
    processing date; its description is the words after the amount
    joined by single spaces, or "Monthly Salary" when there are none. *)
Theorem C7_salary_record `{pd : Pandas} l today args l' amount description balance :
  add_salary l today args = (l', SalaryAdded amount description balance) ->
  exists tok rest,
    args = tok :: rest
    /\ l' = mkledger (expenses_ws l) (salary_ws l ++ [mksalary_row today amount description])
    /\ description = match rest with
                     | [] => "Monthly Salary"
                     | _ => Py.join " " rest
                     end
    /\ Num.float_of_string tok = Some (Num.Finite amount).
Proof.
  intros H. destruct args as [|tok rest]; [discriminate H|].
  exists tok, rest. split; [reflexivity|].
  revert H. unfold add_salary, item, py_float, value_or_error. simpl.
  destruct (Num.float_of_string tok) as [[q| |]|] eqn:Hf; simpl; try discriminate.
  intros H. injection H as <- <- <- _.
  unfold append_salary. destruct rest; auto.
Qed.

Lemma C7_witness :
  add_salary (mkledger [] []) (mkdate 2024 3 31) ["50000"; "March"; "pay"]
  = (mkledger [] [mksalary_row (mkdate 2024 3 31) 50000 "March pay"],
     SalaryAdded 50000 "March pay" 50000)
  /\ exists tok rest,
       ["50000"; "March"; "pay"] = tok :: rest
       /\ mkledger [] [mksalary_row (mkdate 2024 3 31) 50000 "March pay"]
          = mkledger [] ([] ++ [mksalary_row (mkdate 2024 3 31) 50000 "March pay"])
       /\ "March pay" = match rest with
                        | [] => "Monthly Salary"
                        | _ => Py.join " " rest
                        end
       /\ Num.float_of_string tok = Some (Num.Finite 50000).
Proof.
  split; [vm_compute; reflexivity|].
  apply (C7_salary_record (mkledger [] []) (mkdate 2024 3 31) ["50000"; "March"; "pay"]
           _ 50000 "March pay" 50000).
  vm_compute. reflexivity.
Defined.

Example salary_default_ex :
  add_salary (mkledger [] []) (mkdate 2024 3 31) ["50000"]
  = (mkledger [] [mksalary_row (mkdate 2024 3 31) 50000 "Monthly Salary"],
     SalaryAdded 50000 "Monthly Salary" 50000).
Proof. vm_compute. reflexivity. Qed.

Example salary_usage_ex l today : add_salary l today [] = (l, SalaryUsage).
Proof. reflexivity. Qed.

(** C9: when the attempt to read an expense fails, the handler answers
    with one of its three corrective replies and the ledger it leaves
    is the ledger it found: no row is added to either sheet. This
    covers an invalid date, an amount that is not a number and a
    missing amount. *)
Theorem C9_parse_error_keeps_ledger `{pd : Pandas} :
  (forall l today text f,
      parse_expense today text = Failed f ->
      handle_message l today text = (l, reply_of_failure f)
      /\ (reply_of_failure f = InvalidDateReply
          \/ reply_of_failure f = InvalidAmountReply
          \/ exists e, reply_of_failure f = FormatError e))
  /\ (forall l today, handle_message l today "31/02 food 100" = (l, InvalidDateReply))
  /\ (forall l today, handle_message l today "food abc desc" = (l, InvalidAmountReply))
  /\ (forall l today, handle_message l today "food" = (l, FormatError IndexError)).
Proof.
  split; [|split; [|split]].
  - intros l today text f H. split; [now apply handle_message_failed|].
    destruct f as [| |e]; simpl; eauto.
  - intros l today. now rewrite (handle_message_failed l today _ _ (parse_expense_31_02 today)).
  - intros l today. vm_compute. reflexivity.
  - intros l today. vm_compute. reflexivity.
Qed.

Lemma C9_witness :
  parse_expense (mkdate 2024 3 9) "30/02 taxi 120 via card" = Failed InvalidDate
  /\ handle_message
       (mkledger [mkexpense_row (mkdate 2024 3 1) "Rent" 9000 "" "Cash"] [])
       (mkdate 2024 3 9) "30/02 taxi 120 via card"
     = (mkledger [mkexpense_row (mkdate 2024 3 1) "Rent" 9000 "" "Cash"] [],
        InvalidDateReply).
Proof.
  split; [reflexivity|].
  apply (proj1 C9_parse_error_keeps_ledger
           (mkledger [mkexpense_row (mkdate 2024 3 1) "Rent" 9000 "" "Cash"] [])
           (mkdate 2024 3 9) "30/02 taxi 120 via card" InvalidDate).
  reflexivity.
Defined.

Lemma to_lower_ascii c :
  (Py.code c <? 128)%nat = true ->
  negb (Py.is_upper (Py.to_lower c)) && (Py.code (Py.to_lower c) <? 128)%nat = true.
Proof. destruct c as [[] [] [] [] [] [] [] []]; try discriminate; reflexivity. Qed.

Lemma all_chars_lower_ascii s :
  is_ascii s = true ->
  Py.all_chars (fun c => negb (Py.is_upper c) && (Py.code c <? 128)%nat) (Py.lower s) = true.
Proof.
  unfold is_ascii. induction s as [|c s IH]; simpl; [reflexivity|].
  intros H. apply andb_prop in H as [Hc Hs].
  now rewrite (to_lower_ascii c Hc), (IH Hs).
Qed.

Lemma all_chars_both (p q : ascii -> bool) s :
  Py.all_chars (fun c => p c && q c) s = Py.all_chars p s && Py.all_chars q s.
Proof.
  induction s as [|c s IH]; simpl; [reflexivity|]. rewrite IH.
  destruct (p c), (q c), (Py.all_chars p s); reflexivity.
Qed.

(** C10 as stated fails on a message with a capital letter that has no
    lowercase form: the text is lowercased before it is split, but
    the mathematical bold capital A stays what it is and is stored in
    the description. *)
Lemma C10_counterexample :
  parse_expense (mkdate 2024 3 9) "food 10 𝐀"
  = Parsed (mkexpense (mkdate 2024 3 9) "Food" (Num.Finite 10) "𝐀" "Cash")
  /\ spec_has_uppercase "𝐀" = true.
Proof. split; vm_compute; reflexivity. Qed.

(** C10, amended: for a message of ASCII characters the fields stored
    for an expense come from the lowercased message. The description
    has no capital letter (and is ASCII), and the category is the
    title-casing of a token of the lowercased message, a token
    without capital letters. *)
Theorem C10_lowercased_fields :
  (forall today text e,
      is_ascii text = true ->
      parse_expense today text = Parsed e ->
      Py.all_chars (fun c => negb (Py.is_upper c)) (e_description e) = true
      /\ is_ascii (e_description e) = true
      /\ exists token,
           In token (Py.split (Py.lower text))
           /\ Py.all_chars (fun c => negb (Py.is_upper c)) token = true
           /\ e_category e = Py.title token)
  /\ (forall today,
         parse_expense today "FOOD 250 Lunch At CAFE"
         = Parsed (mkexpense today "Food" (Num.Finite 250) "lunch at cafe" "Cash")).
Proof.
  split; [|intros today; vm_compute; reflexivity].
  intros today text e Hascii H.
  pose proof (split_all_chars _ _ (all_chars_lower_ascii text Hascii)) as Hall.
  destruct (parse_expense_inv today text e H) as (parts1 & parts2 & Hp & Hd & Hf).
  assert (H1 : parts1 ⊆ Py.split (Py.lower text)).
  { apply parse_payment_method_inv in Hp as [_ [[_ ->]|(i & _ & ->)]];
      [reflexivity|apply subseteq_take]. }
  assert (H2 : parts2 ⊆ parts1).
  { apply parse_date_inv in Hd as (f & _ & [(_ & _ & ->)|(a & b & dd & mm & Hx)]);
      [reflexivity|].
    destruct Hx as (_ & _ & _ & _ & _ & ->). apply subseteq_drop. }
  assert (Hall2 : Forall (fun tok => Py.all_chars
                            (fun c => negb (Py.is_upper c) && (Py.code c <? 128)%nat) tok
                          = true) parts2).
  { rewrite Forall_forall in *. intros x Hx. apply Hall, H1, H2, Hx. }
  apply parse_fields_inv in Hf as (first & second & Hfirst & _ & Hc & _ & Hdesc).
  assert (Hd2 : Py.all_chars (fun c => negb (Py.is_upper c) && (Py.code c <? 128)%nat)
                             (e_description e) = true).
  { rewrite Hdesc. destruct (2 <? length parts2)%nat; [|reflexivity].
    apply join_all_chars; [reflexivity|]. now apply Forall_drop. }
  rewrite all_chars_both in Hd2. apply andb_prop in Hd2 as [Hup Has].
  split; [exact Hup|]. split; [exact Has|].
  exists first. apply list_elem_of_lookup_2 in Hfirst.
  split; [apply list_elem_of_In, H1, H2, Hfirst|].
  split; [|exact Hc].
  rewrite Forall_forall in Hall2. specialize (Hall2 _ Hfirst).
  rewrite all_chars_both in Hall2. now apply andb_prop in Hall2 as [Hx _].
Qed.

Lemma C10_witness :
  is_ascii "GROCERIES 1200 Big Bazaar" = true
  /\ parse_expense (mkdate 2024 3 9) "GROCERIES 1200 Big Bazaar"
     = Parsed (mkexpense (mkdate 2024 3 9) "Groceries" (Num.Finite 1200) "big bazaar" "Cash")
  /\ Py.all_chars (fun c => negb (Py.is_upper c)) "big bazaar" = true.
Proof.
  split; [reflexivity|]. split; [vm_compute; reflexivity|].
  apply (proj1 C10_lowercased_fields (mkdate 2024 3 9) "GROCERIES 1200 Big Bazaar"
           (mkexpense (mkdate 2024 3 9) "Groceries" (Num.Finite 1200) "big bazaar" "Cash")).
  - reflexivity.
  - vm_compute. reflexivity.
Defined.

(** ** The claims about the aggregator *)

Lemma column_sum_adds_short_columns : adds_short_columns column_sum.
Proof. repeat split. Qed.

Lemma lookup_keyed {A} (f : string -> A) (ks : list string) (k : string) :
  (list_to_map (map (fun k => (k, f k)) ks) : gmap string A) !! k
  = if decide (k ∈ ks) then Some (f k) else None.
Proof.
  induction ks as [|a ks IH]; cbn [map].
  - rewrite list_to_map_nil, lookup_empty.
    destruct (decide (k ∈ [])) as [H|_]; [inversion H|reflexivity].
  - rewrite list_to_map_cons. destruct (decide (a = k)) as [->|Hne].
    + rewrite lookup_insert_eq.
      destruct (decide (k ∈ k :: ks)) as [_|H]; [reflexivity|].
      exfalso. apply H. left.
    + rewrite lookup_insert_ne by exact Hne. rewrite IH.
      destruct (decide (k ∈ ks)) as [Hin|Hnin], (decide (k ∈ a :: ks)) as [Hin'|Hnin'];
        try reflexivity; exfalso.
      * apply Hnin'. now right.
      * apply elem_of_cons in Hin' as [->|Hin']; [now apply Hne|now apply Hnin].
Qed.

Lemma filter_key_nil (key : expense_row -> string) df k :
  filter (fun r => key r = k) df = [] <-> k ∉ map key df.
Proof.
  split.
  - intros E Hin. apply list_elem_of_fmap in Hin as (r & -> & Hr).
    assert (H : r ∈ filter (fun r' => key r' = key r) df)
      by (apply list_elem_of_filter; auto).
    rewrite E in H. inversion H.
  - intros Hnin. destruct (filter (fun r => key r = k) df) as [|r rows] eqn:E; [reflexivity|].
    exfalso. apply Hnin.
    assert (H : r ∈ filter (fun r => key r = k) df) by (rewrite E; left).
    apply list_elem_of_filter in H as [<- Hr]. apply list_elem_of_fmap. eauto.
Qed.

Lemma groupby_sum_lookup `{pd : Pandas} key df k :
  groupby_sum key df !! k = group_total (filter (fun r => key r = k) df).
Proof.
  unfold groupby_sum.
  rewrite (lookup_keyed (fun k => group_sum (map Amount (filter (fun r => key r = k) df)))).
  unfold group_total. destruct (decide (k ∈ map key df)) as [Hin|Hnin].
  - destruct (filter (fun r => key r = k) df) as [|r rows] eqn:E; [|reflexivity].
    exfalso. now apply filter_key_nil in E.
  - apply filter_key_nil in Hnin. now rewrite Hnin.
Qed.

Lemma filter_all {A} (l : list A) : filter (fun _ : A => true = true) l = l.
Proof.
  induction l as [|a l IH]; [reflexivity|].
  rewrite filter_cons. destruct (decide (true = true)); [|congruence]. now rewrite IH.
Qed.

Lemma in_window_spec w today d :
  in_window w today d = true <->
  match w with
  | Today => d = today
  | CurrentMonth => year d = year today /\ month d = month today
  | CurrentYear => year d = year today
  | AllTime => True
  end.
Proof.
  destruct w; simpl; unfold date_eqb, same_month, same_year;
    rewrite ?andb_true_iff, ?Z.eqb_eq; try tauto.
  destruct d as [y m dd], today as [y' m' dd']; simpl. split.
  - intros [[-> ->] ->]. reflexivity.
  - intros H. injection H as -> -> ->. auto.
Qed.

Lemma today_total_sum today l :
  today_total today l = column_sum (map Amount (today_expenses today l)).
Proof.
  unfold today_total, column_sum.
  generalize (today_expenses today l). intros rows. generalize 0%float.
  induction rows as [|r rows IH]; intros q; [reflexivity|]. simpl. apply IH.
Qed.

Lemma calculate_balance_sums `{pd : Pandas} l :
  adds_short_columns series_sum ->
  calculate_balance l
  = (series_sum (map s_Amount (salary_ws l)) - series_sum (map Amount (expenses_ws l)))%float.
Proof.
  intros (Hnil & _ & _). destruct l as [ex sal]. unfold calculate_balance. simpl.
  destruct ex, sal; simpl; rewrite ?Hnil; reflexivity.
Qed.






(** * Further properties of the code *)

(** ** Letter case *)

Lemma to_lower_idempotent c : Py.to_lower (Py.to_lower c) = Py.to_lower c.
Proof. destruct c as [[] [] [] [] [] [] [] []]; reflexivity. Qed.

Lemma to_upper_idempotent c : Py.to_upper (Py.to_upper c) = Py.to_upper c.
Proof. destruct c as [[] [] [] [] [] [] [] []]; reflexivity. Qed.

Lemma to_upper_to_lower c : Py.to_upper (Py.to_lower c) = Py.to_upper c.
Proof. destruct c as [[] [] [] [] [] [] [] []]; reflexivity. Qed.

Lemma cased_to_lower c :
  Py.is_upper (Py.to_lower c) || Py.is_lower (Py.to_lower c)
  = Py.is_upper c || Py.is_lower c.
Proof. destruct c as [[] [] [] [] [] [] [] []]; reflexivity. Qed.

Lemma cased_to_upper c :
  Py.is_upper (Py.to_upper c) || Py.is_lower (Py.to_upper c)
  = Py.is_upper c || Py.is_lower c.
Proof. destruct c as [[] [] [] [] [] [] [] []]; reflexivity. Qed.

Lemma lower_idempotent s : Py.lower (Py.lower s) = Py.lower s.
Proof.
  induction s as [|c s IH]; simpl; [reflexivity|].
  now rewrite to_lower_idempotent, IH.
Qed.

Lemma title_from_lower b s : Py.title_from b (Py.lower s) = Py.title_from b s.
Proof.
  revert b. induction s as [|c s IH]; intros b; simpl; [reflexivity|].
  rewrite cased_to_lower, to_lower_idempotent, to_upper_to_lower, !IH.
  destruct (Py.is_upper c || Py.is_lower c) eqn:E; [reflexivity|].
  f_equal. unfold Py.to_lower. apply orb_false_elim in E as [-> _]. reflexivity.
Qed.

Lemma title_from_idempotent b s :
  Py.title_from b (Py.title_from b s) = Py.title_from b s.
Proof.
  revert b. induction s as [|c s IH]; intros b; simpl; [reflexivity|].
  destruct (Py.is_upper c || Py.is_lower c) eqn:E; simpl.
  - destruct b.
    + rewrite cased_to_lower, E, to_lower_idempotent, IH. reflexivity.
    + rewrite cased_to_upper, E, to_upper_idempotent, IH. reflexivity.
  - rewrite E, IH. reflexivity.
Qed.

(** ** Tokens *)

Lemma split_from_tokens s : forall cur,
  Py.all_chars (fun c => negb (Py.is_space c)) cur = true ->
  Forall is_token (Py.split_from cur s).
Proof.
  induction s as [|c s IH]; intros cur Hcur; simpl.
  - destruct cur; [constructor|]. constructor; [|constructor].
    split; [discriminate|exact Hcur].
  - destruct (Py.is_space c) eqn:Hc.
    + destruct cur.
      * apply IH. reflexivity.
      * constructor; [split; [discriminate|exact Hcur]|]. apply IH. reflexivity.
    + apply IH. rewrite all_chars_app, Hcur. simpl. now rewrite Hc.
Qed.

Lemma split_tokens s : Forall is_token (Py.split s).
Proof. apply split_from_tokens. reflexivity. Qed.

Lemma split_from_app t rest : forall cur,
  Py.all_chars (fun c => negb (Py.is_space c)) t = true ->
  Py.split_from cur (t ++ rest)%string = Py.split_from (cur ++ t)%string rest.
Proof.
  induction t as [|c t IH]; intros cur Ht.
  - now rewrite str_app_nil_r.
  - simpl in Ht. apply andb_prop in Ht as [Hc Ht].
    rewrite str_app_cons. simpl. apply negb_true_iff in Hc. rewrite Hc.
    rewrite IH by exact Ht. now rewrite str_app_assoc.
Qed.

Lemma split_from_space cur rest :
  cur <> "" -> Py.split_from cur (String " " rest) = cur :: Py.split_from "" rest.
Proof. intros H. destruct cur; [contradiction|reflexivity]. Qed.

Lemma split_from_end cur : cur <> "" -> Py.split_from cur "" = [cur].
Proof. intros H. destruct cur; [contradiction|reflexivity]. Qed.

(** Joining tokens with single spaces and splitting again gives the
    tokens back. *)
Lemma split_join l : Forall is_token l -> Py.split (Py.join " " l) = l.
Proof.
  unfold Py.split. induction 1 as [|x l [Hne Hx] Hl IH]; [reflexivity|].
  destruct l as [|y l'].
  - change (Py.join " " [x]) with x. rewrite <- (str_app_nil_r x) at 1.
    rewrite split_from_app by exact Hx.
    change ("" ++ x)%string with x. now apply split_from_end.
  - change (Py.join " " (x :: y :: l'))
      with (x ++ String " " (Py.join " " (y :: l')))%string.
    rewrite split_from_app by exact Hx.
    change ("" ++ x)%string with x.
    rewrite split_from_space by exact Hne. now rewrite IH.
Qed.

Lemma index_contains x l :
  Py.contains x l = match Py.index x l with Some _ => true | None => false end.
Proof.
  induction l as [|y l IH]; [reflexivity|]. simpl.
  rewrite (String.eqb_sym x y). destruct (String.eqb y x); [reflexivity|].
  simpl. rewrite IH. destruct (Py.index x l); reflexivity.
Qed.

Lemma index_take x l i : Py.index x l = Some i -> Py.index x (take i l) = None.
Proof.
  revert i. induction l as [|y l IH]; intros i; simpl; [discriminate|].
  destruct (String.eqb y x) eqn:E.
  - intros H. injection H as <-. reflexivity.
  - destruct (Py.index x l) as [j|]; simpl; [|discriminate].
    intros H. injection H as <-. simpl. rewrite E, (IH j eq_refl). reflexivity.
Qed.

(** The first stage never fails and keeps the tokens left of [via]. *)
Lemma parse_payment_method_total parts :
  parse_payment_method parts = Ok ("Cash", tokens_before_via parts).
Proof.
  unfold parse_payment_method, tokens_before_via. rewrite index_contains.
  destruct (Py.index "via" parts) as [i|]; simpl; [|reflexivity].
  now rewrite match_payment_method_cash.
Qed.

Lemma tokens_before_via_idempotent parts :
  tokens_before_via (tokens_before_via parts) = tokens_before_via parts.
Proof.
  unfold tokens_before_via at 2 3.
  destruct (Py.index "via" parts) as [i|] eqn:E.
  - unfold tokens_before_via. now rewrite (index_take _ _ _ E).
  - unfold tokens_before_via. now rewrite E.
Qed.

Lemma parse_expense_stages today text :
  parse_expense today text
  = ('(expense_date, parts) ← parse_date today
                                (tokens_before_via (Py.split (Py.lower text)));
     '(category, amount, description) ← parse_fields parts;
     Parsed (mkexpense expense_date category amount description "Cash")).
Proof. unfold parse_expense. rewrite parse_payment_method_total. reflexivity. Qed.

Lemma lower_fixed s :
  Py.all_chars (fun c => negb (Py.is_upper c)) s = true -> Py.lower s = s.
Proof.
  induction s as [|c s IH]; simpl; [reflexivity|].
  intros H. apply andb_prop in H as [Hc Hs]. rewrite (IH Hs).
  unfold Py.to_lower. apply negb_true_iff in Hc. now rewrite Hc.
Qed.

Lemma parse_expense_tokens today text1 text2 :
  tokens_before_via (Py.split (Py.lower text1))
  = tokens_before_via (Py.split (Py.lower text2)) ->
  parse_expense today text1 = parse_expense today text2.
Proof. intros H. rewrite !parse_expense_stages, H. reflexivity. Qed.

Lemma handle_message_parse `{pd : Pandas} l today text1 text2 :
  parse_expense today text1 = parse_expense today text2 ->
  handle_message l today text1 = handle_message l today text2.
Proof. intros H. unfold handle_message. rewrite H. reflexivity. Qed.

(** ** What a message is read as *)

(** X1: two messages that differ only in the case of their letters are
    handled alike: same ledger afterwards, same reply. *)
Theorem X1_letter_case_is_ignored `{pd : Pandas} l today text1 text2 :
  Py.lower text1 = Py.lower text2 ->
  handle_message l today text1 = handle_message l today text2.
Proof.
  intros H. apply handle_message_parse, parse_expense_tokens. now rewrite H.
Qed.

Lemma X1_witness :
  Py.lower "Food 250 LUNCH" = Py.lower "fOOD 250 lunch"
  /\ handle_message (mkledger [] []) (mkdate 2024 3 9) "Food 250 LUNCH"
     = handle_message (mkledger [] []) (mkdate 2024 3 9) "fOOD 250 lunch".
Proof.
  split; [vm_compute; reflexivity|].
  apply (X1_letter_case_is_ignored (mkledger [] []) (mkdate 2024 3 9)
           "Food 250 LUNCH" "fOOD 250 lunch").
  vm_compute. reflexivity.
Defined.

(** X2: only the tokens left of the first [via] count. Two messages
    with the same tokens there are handled alike, whatever follows
    [via] and whether or not there is a [via] at all. *)
Theorem X2_only_tokens_before_via_count `{pd : Pandas} l today text1 text2 :
  tokens_before_via (Py.split (Py.lower text1))
  = tokens_before_via (Py.split (Py.lower text2)) ->
  handle_message l today text1 = handle_message l today text2.
Proof. intros H. now apply handle_message_parse, parse_expense_tokens. Qed.

Lemma X2_witness :
  tokens_before_via (Py.split (Py.lower "taxi 120 airport via Bank Transfer"))
  = tokens_before_via (Py.split (Py.lower "taxi 120 airport"))
  /\ handle_message (mkledger [] []) (mkdate 2024 3 9) "taxi 120 airport via Bank Transfer"
     = handle_message (mkledger [] []) (mkdate 2024 3 9) "taxi 120 airport".
Proof.
  split; [vm_compute; reflexivity|].
  apply (X2_only_tokens_before_via_count (mkledger [] []) (mkdate 2024 3 9)
           "taxi 120 airport via Bank Transfer" "taxi 120 airport").
  vm_compute. reflexivity.
Defined.

(** X3: a message can be replaced by its kept tokens joined with single
    spaces: extra white space, letter case and the [via] clause make no
    difference to what the handler does. *)
Theorem X3_message_normal_form `{pd : Pandas} l today text :
  handle_message l today (Py.join " " (tokens_before_via (Py.split (Py.lower text))))
  = handle_message l today text.
Proof.
  apply handle_message_parse, parse_expense_tokens.
  set (parts := Py.split (Py.lower text)).
  assert (Htok : Forall is_token (tokens_before_via parts)).
  { unfold tokens_before_via. destruct (Py.index "via" parts);
      [apply Forall_take|]; apply split_tokens. }
  assert (Hlow : Forall (fun tok => Py.all_chars (fun c => negb (Py.is_upper c)) tok = true)
                        (tokens_before_via parts)).
  { unfold tokens_before_via. destruct (Py.index "via" parts);
      [apply Forall_take|]; apply split_all_chars, all_chars_lower. }
  rewrite lower_fixed by (apply join_all_chars; [reflexivity|exact Hlow]).
  rewrite split_join by exact Htok.
  apply tokens_before_via_idempotent.
Qed.

(** X4: nothing is stored for a message with fewer than two tokens left
    of [via] (no tokens at all, [via] in first place, a category
    without an amount): the ledger is unchanged and the reply is one
    of the corrective replies. *)
Theorem X4_too_few_tokens `{pd : Pandas} l today text :
  (length (tokens_before_via (Py.split (Py.lower text))) < 2)%nat ->
  exists f, handle_message l today text = (l, reply_of_failure f).
Proof.
  intros Hlen. destruct (parse_expense today text) as [e|f] eqn:Hp.
  - exfalso.
    apply parse_expense_inv in Hp as (parts1 & parts2 & Hpm & Hd & Hf).
    rewrite parse_payment_method_total in Hpm. injection Hpm as _ <-.
    apply parse_fields_inv in Hf as (a & b & _ & Hb & _).
    apply lookup_lt_Some in Hb.
    apply parse_date_inv in Hd as (f & _ & [(_ & _ & ->)|(x & y & dd & mm & Hx)]).
    + lia.
    + destruct Hx as (_ & _ & _ & _ & _ & ->). rewrite length_drop in Hb. lia.
  - exists f. now apply handle_message_failed.
Qed.

Lemma X4_witness :
  (length (tokens_before_via (Py.split (Py.lower "via upi"))) < 2)%nat
  /\ exists f, handle_message (mkledger [] []) (mkdate 2024 3 9) "via upi"
               = (mkledger [] [], reply_of_failure f).
Proof.
  split; [vm_compute; lia|].
  apply (X4_too_few_tokens (mkledger [] []) (mkdate 2024 3 9) "via upi").
  vm_compute. lia.
Defined.

(** X5: for a message of ASCII characters the category that is stored
    is in title case: title-casing it again changes nothing. *)
Theorem X5_category_is_title_cased today text e :
  is_ascii text = true ->
  parse_expense today text = Parsed e ->
  Py.title (e_category e) = e_category e.
Proof.
  intros _ H. apply parse_expense_inv in H as (parts1 & parts2 & _ & _ & Hf).
  apply parse_fields_inv in Hf as (a & b & _ & _ & -> & _).
  apply title_from_idempotent.
Qed.

Lemma X5_witness :
  is_ascii "o'neil's-PUB 40" = true
  /\ parse_expense (mkdate 2024 3 9) "o'neil's-PUB 40"
     = Parsed (mkexpense (mkdate 2024 3 9) "O'Neil'S-Pub" (Num.Finite 40) "" "Cash")
  /\ Py.title "O'Neil'S-Pub" = "O'Neil'S-Pub".
Proof.
  split; [vm_compute; reflexivity|]. split; [vm_compute; reflexivity|].
  apply (X5_category_is_title_cased (mkdate 2024 3 9) "o'neil's-PUB 40"
           (mkexpense (mkdate 2024 3 9) "O'Neil'S-Pub" (Num.Finite 40) "" "Cash")).
  - vm_compute. reflexivity.
  - vm_compute. reflexivity.
Defined.

(** X6: when the reference date is a calendar date, so is the date of
    every parsed expense, with or without a DD/MM token. *)
Theorem X6_stored_date_is_calendar_date today text e :
  is_calendar_date today ->
  parse_expense today text = Parsed e ->
  is_calendar_date (e_date e).
Proof.
  intros Htoday H. apply parse_expense_inv in H as (parts1 & parts2 & _ & Hd & _).
  apply parse_date_inv in Hd as (f & _ & [(_ & -> & _)|(a & b & dd & mm & Hx)]);
    [exact Htoday|].
  destruct Hx as (_ & _ & _ & Hv & -> & _). exact Hv.
Qed.

Lemma X6_witness :
  is_calendar_date (mkdate 2024 3 9)
  /\ parse_expense (mkdate 2024 3 9) "29/02 rent 9000"
     = Parsed (mkexpense (mkdate 2024 2 29) "Rent" (Num.Finite 9000) "" "Cash")
  /\ is_calendar_date (mkdate 2024 2 29).
Proof.
  split; [reflexivity|]. split; [vm_compute; reflexivity|].
  apply (X6_stored_date_is_calendar_date (mkdate 2024 3 9) "29/02 rent 9000"
           (mkexpense (mkdate 2024 2 29) "Rent" (Num.Finite 9000) "" "Cash")).
  - reflexivity.
  - vm_compute. reflexivity.
Defined.

(** X7: what is stored is read off the kept tokens by position. With
    [k] = 1 when a DD/MM token leads and 0 otherwise (then the date is
    the reference date), token [k] gives the category, token [k+1] the
    amount, and the description splits back into exactly the tokens
    from position [k+2] on. *)
Theorem X7_fields_by_position today text e :
  parse_expense today text = Parsed e ->
  exists k category_token amount_token,
    ((k = 0%nat /\ e_date e = today) \/ k = 1%nat)
    /\ tokens_before_via (Py.split (Py.lower text)) !! k = Some category_token
    /\ e_category e = Py.title category_token
    /\ tokens_before_via (Py.split (Py.lower text)) !! S k = Some amount_token
    /\ Num.float_of_string amount_token = Some (e_amount e)
    /\ Py.split (e_description e)
       = drop (2 + k) (tokens_before_via (Py.split (Py.lower text))).
Proof.
  intros H. apply parse_expense_inv in H as (parts1 & parts2 & Hpm & Hd & Hf).
  rewrite parse_payment_method_total in Hpm. injection Hpm as _ <-.
  set (tokens := tokens_before_via (Py.split (Py.lower text))) in *.
  assert (Htok : Forall is_token tokens).
  { unfold tokens, tokens_before_via.
    destruct (Py.index "via" (Py.split (Py.lower text)));
      [apply Forall_take|]; apply split_tokens. }
  apply parse_fields_inv in Hf as (a & b & Ha & Hb & Hc & Hfl & Hdesc).
  assert (Hsplit : Py.split (e_description e) = drop 2 parts2).
  { rewrite Hdesc. destruct (Nat.ltb_spec 2 (length parts2)) as [Hlt|Hge].
    - apply split_join, Forall_drop.
      apply parse_date_inv in Hd as (f & _ & [(_ & _ & ->)|(x & y & dd & mm & Hx)]);
        [exact Htok|].
      destruct Hx as (_ & _ & _ & _ & _ & ->). now apply Forall_drop.
    - rewrite drop_ge by lia. reflexivity. }
  apply parse_date_inv in Hd as (f & _ & [(_ & Hdate & ->)|(x & y & dd & mm & Hx)]).
  - exists 0%nat, a, b. rewrite Hsplit. auto 10.
  - destruct Hx as (_ & _ & _ & _ & _ & ->).
    rewrite lookup_drop in Ha, Hb. rewrite drop_drop in Hsplit.
    exists 1%nat, a, b. rewrite Hsplit. simpl in *. auto 10.
Qed.

Lemma X7_witness :
  parse_expense (mkdate 2024 3 9) "15/05   Food 250  Lunch   at CAFE via upi now"
  = Parsed (mkexpense (mkdate 2024 5 15) "Food" (Num.Finite 250) "lunch at cafe" "Cash")
  /\ exists k category_token amount_token,
       ((k = 0%nat /\ mkdate 2024 5 15 = mkdate 2024 3 9) \/ k = 1%nat)
       /\ tokens_before_via
            (Py.split (Py.lower "15/05   Food 250  Lunch   at CAFE via upi now")) !! k
          = Some category_token
       /\ "Food" = Py.title category_token
       /\ tokens_before_via
            (Py.split (Py.lower "15/05   Food 250  Lunch   at CAFE via upi now")) !! S k
          = Some amount_token
       /\ Num.float_of_string amount_token = Some (Num.Finite 250)
       /\ Py.split "lunch at cafe"
          = drop (2 + k)
              (tokens_before_via
                 (Py.split (Py.lower "15/05   Food 250  Lunch   at CAFE via upi now"))).
Proof.
  split; [vm_compute; reflexivity|].
  apply (X7_fields_by_position (mkdate 2024 3 9)
           "15/05   Food 250  Lunch   at CAFE via upi now"
           (mkexpense (mkdate 2024 5 15) "Food" (Num.Finite 250) "lunch at cafe" "Cash")).
  vm_compute. reflexivity.
Defined.


(** ** Groupings and totals *)

Lemma groupby_sum_key `{pd : Pandas} key df k :
  is_Some (groupby_sum key df !! k) <-> exists r, r ∈ df /\ key r = k.
Proof.
  rewrite groupby_sum_lookup. unfold group_total.
  destruct (filter (fun r => key r = k) df) as [|r rows] eqn:E.
  - split; [intros [x Hx]; discriminate|].
    intros (r & Hr & Hk).
    assert (H : r ∈ filter (fun r => key r = k) df) by (apply list_elem_of_filter; auto).
    rewrite E in H. inversion H.
  - split; [|eauto]. intros _. exists r.
    assert (H : r ∈ filter (fun r => key r = k) df) by (rewrite E; left).
    apply list_elem_of_filter in H as [Hk Hr]. auto.
Qed.

Lemma groupby_sum_empty `{pd : Pandas} key df : groupby_sum key df = ∅ <-> df = [].
Proof.
  split.
  - intros H. destruct df as [|r df]; [reflexivity|]. exfalso.
    assert (Hs : is_Some (groupby_sum key (r :: df) !! key r)).
    { apply groupby_sum_key. exists r. split; [left|reflexivity]. }
    rewrite H, lookup_empty in Hs. destruct Hs as [x Hx]. discriminate.
  - intros ->. reflexivity.
Qed.



Lemma date_eqb_eq a b : date_eqb a b = true <-> a = b.
Proof. apply (in_window_spec Today b a). Qed.

Lemma same_month_same_year today d : same_month today d = true -> same_year today d = true.
Proof. unfold same_month, same_year. intros H. now apply andb_prop in H as [H _]. Qed.

Lemma date_eqb_same_month today d : date_eqb d today = true -> same_month today d = true.
Proof.
  intros H. apply date_eqb_eq in H as ->. unfold same_month.
  now rewrite !Z.eqb_refl.
Qed.

Lemma filter_by_window_nested w1 w2 today df :
  (forall d, in_window w1 today d = true -> in_window w2 today d = true) ->
  filter_by_window w1 today (filter_by_window w2 today df) = filter_by_window w1 today df.
Proof.
  intros Himp. unfold filter_by_window. rewrite list_filter_filter.
  apply list_filter_iff. intros r. split; [tauto|]. auto.
Qed.

(** X12: the windows are nested. Filtering for today inside the rows of
    the month, or for the month inside the rows of the year, gives the
    same rows as filtering directly; hence every category of the
    monthly report is a category of the yearly report. *)
Theorem X12_windows_nested `{pd : Pandas} today l :
  filter_by_window Today today (filter_by_window CurrentMonth today (expenses_ws l))
  = filter_by_window Today today (expenses_ws l)
  /\ filter_by_window CurrentMonth today (filter_by_window CurrentYear today (expenses_ws l))
     = filter_by_window CurrentMonth today (expenses_ws l)
  /\ dom (monthly_by_category today l) ⊆ dom (yearly_by_category today l).
Proof.
  split; [|split].
  - apply filter_by_window_nested. intros d. apply date_eqb_same_month.
  - apply filter_by_window_nested. intros d. apply same_month_same_year.
  - intros k. unfold monthly_by_category, yearly_by_category.
    rewrite !elem_of_dom, !groupby_sum_key.
    intros (r & Hr & Hk). exists r. split; [|exact Hk].
    apply list_elem_of_filter in Hr as [Hm Hr]. apply list_elem_of_filter.
    split; [now apply same_month_same_year|exact Hr].
Qed.

(** ** The read-only commands *)




(** X14: the reply of [show_today_expenses]. It says that nothing is
    recorded exactly for the empty sheet, that nothing is recorded for
    today exactly when the sheet has rows but none dated today, and it
    lists otherwise exactly the rows dated today, in sheet order; the
    total is what adding their amounts to 0 one after the other in
    this order gives in binary64. *)
Theorem X14_show_today_expenses today l :
  (show_today_expenses today l = NoExpensesYet /\ expenses_ws l = [])
  \/ (show_today_expenses today l = NoExpensesToday
      /\ expenses_ws l <> []
      /\ forall r, r ∈ expenses_ws l -> Date r <> today)
  \/ (exists rows,
         show_today_expenses today l = TodayExpenses rows (column_sum (map Amount rows))
         /\ rows <> []
         /\ rows = filter (fun r => Date r = today) (expenses_ws l)).
Proof.
  assert (Hf : today_expenses today l = filter (fun r => Date r = today) (expenses_ws l)).
  { unfold today_expenses. apply list_filter_iff. intros r. apply date_eqb_eq. }
  unfold show_today_expenses.
  destruct (expenses_ws l) as [|r0 df] eqn:Hdf; [left; auto|right].
  rewrite today_total_sum.
  destruct (today_expenses today l) as [|r rows] eqn:E.
  - left. split; [reflexivity|]. split; [discriminate|].
    intros r Hr Hd.
    assert (H : r ∈ filter (fun r => Date r = today) (r0 :: df))
      by (apply list_elem_of_filter; auto).
    rewrite <- Hf in H. inversion H.
  - right. exists (r :: rows). rewrite <- Hf.
    split; [reflexivity|]. split; [discriminate|reflexivity].
Qed.

(** ** The worksheets *)

(** X16: [get_or_create_worksheet] returns the worksheet that the
    spreadsheet holds under the title afterwards; it leaves every
    worksheet that existed as it was (also the one asked for, whatever
    the headers passed), so nothing is lost; and a second call with
    the same title, with any headers, changes nothing and returns the
    same worksheet. *)
Theorem X16_get_or_create_worksheet (spreadsheet : gmap string (list (list string)))
    title headers :
  fst (get_or_create_worksheet spreadsheet title headers) !! title
  = Some (snd (get_or_create_worksheet spreadsheet title headers))
  /\ spreadsheet ⊆ fst (get_or_create_worksheet spreadsheet title headers)
  /\ (forall other,
         other <> title ->
         fst (get_or_create_worksheet spreadsheet title headers) !! other
         = spreadsheet !! other)
  /\ (spreadsheet !! title = None ->
      snd (get_or_create_worksheet spreadsheet title headers) = [headers])
  /\ (forall headers',
         get_or_create_worksheet
           (fst (get_or_create_worksheet spreadsheet title headers)) title headers'
         = get_or_create_worksheet spreadsheet title headers).
Proof.
  unfold get_or_create_worksheet.
  destruct (spreadsheet !! title) as [ws|] eqn:E; simpl.
  - split; [exact E|]. split; [reflexivity|]. split; [reflexivity|].
    split; [discriminate|]. intros h'. rewrite E. reflexivity.
  - split; [apply lookup_insert_eq|]. split; [now apply insert_subseteq|].
    split; [intros other Hne; now apply lookup_insert_ne|].
    split; [reflexivity|]. intros h'. rewrite lookup_insert_eq. reflexivity.
Qed.

Lemma X16_witness :
  (∅ : gmap string (list (list string))) !! "Salary" = None
  /\ snd (get_or_create_worksheet ∅ "Salary" ["Date"; "Amount"; "Description"])
     = [["Date"; "Amount"; "Description"]].
Proof.
  split; [reflexivity|].
  apply (X16_get_or_create_worksheet ∅ "Salary" ["Date"; "Amount"; "Description"]).
  reflexivity.
Defined.

(** X17: after the start-up both worksheets exist, every worksheet
    that existed before is unchanged, a missing one consists of its
    header row, and running the start-up again changes nothing. *)
Theorem X17_init_worksheets (spreadsheet : gmap string (list (list string))) :
  spreadsheet ⊆ init_worksheets spreadsheet
  /\ init_worksheets spreadsheet !! EXPENSES_SHEET
     = Some (default [EXPENSES_HEADERS] (spreadsheet !! EXPENSES_SHEET))
  /\ init_worksheets spreadsheet !! SALARY_SHEET
     = Some (default [SALARY_HEADERS] (spreadsheet !! SALARY_SHEET))
  /\ dom (init_worksheets spreadsheet)
     = dom spreadsheet ∪ {[EXPENSES_SHEET; SALARY_SHEET]}
  /\ init_worksheets (init_worksheets spreadsheet) = init_worksheets spreadsheet.
Proof.
  assert (Hne : EXPENSES_SHEET <> SALARY_SHEET) by discriminate.
  assert (Hinit : init_worksheets spreadsheet
                  = <[SALARY_SHEET := default [SALARY_HEADERS] (spreadsheet !! SALARY_SHEET)]>
                      (<[EXPENSES_SHEET :=
                           default [EXPENSES_HEADERS] (spreadsheet !! EXPENSES_SHEET)]>
                         spreadsheet)).
  { unfold init_worksheets, get_or_create_worksheet.
    destruct (spreadsheet !! EXPENSES_SHEET) as [e|] eqn:He; simpl.
    - rewrite (insert_id _ _ _ He).
      destruct (spreadsheet !! SALARY_SHEET) as [sl|] eqn:Hs; simpl;
        [now rewrite (insert_id _ _ _ Hs)|reflexivity].
    - rewrite lookup_insert_ne by exact Hne.
      destruct (spreadsheet !! SALARY_SHEET) as [sl|] eqn:Hs; simpl; [|reflexivity].
      symmetry. apply insert_id. now rewrite lookup_insert_ne. }
  assert (He : init_worksheets spreadsheet !! EXPENSES_SHEET
               = Some (default [EXPENSES_HEADERS] (spreadsheet !! EXPENSES_SHEET))).
  { rewrite Hinit, lookup_insert_ne by (intros H; now apply Hne).
    apply lookup_insert_eq. }
  assert (Hs : init_worksheets spreadsheet !! SALARY_SHEET
               = Some (default [SALARY_HEADERS] (spreadsheet !! SALARY_SHEET))).
  { rewrite Hinit. apply lookup_insert_eq. }
  split; [|split; [exact He|split; [exact Hs|split]]].
  - apply map_subseteq_spec. intros k v Hk. rewrite Hinit.
    destruct (decide (k = SALARY_SHEET)) as [->|H1];
      [rewrite lookup_insert_eq, Hk; reflexivity|].
    rewrite lookup_insert_ne by congruence.
    destruct (decide (k = EXPENSES_SHEET)) as [->|H2];
      [rewrite lookup_insert_eq, Hk; reflexivity|].
    rewrite lookup_insert_ne by congruence. exact Hk.
  - rewrite Hinit, !dom_insert_L. apply set_eq. intros x.
    rewrite !elem_of_union, !elem_of_singleton. tauto.
  - unfold init_worksheets at 1. unfold get_or_create_worksheet.
    rewrite He. simpl. rewrite Hs. reflexivity.
Qed.

(** ** Sequences of updates *)

Lemma step_shape `{pd : Pandas} l ev :
  step l ev = l
  \/ (exists today text e q,
         ev = Message today text /\ parse_expense today text = Parsed e
         /\ e_amount e = Num.Finite q
         /\ step l ev
            = append_expense l (mkexpense_row (e_date e) (e_category e) q
                                              (e_description e) (e_payment_method e)))
  \/ (exists today tok rest q,
         ev = AddSalary today (tok :: rest)
         /\ step l ev
            = append_salary l (mksalary_row today q (spec_salary_description (tok :: rest)))).
Proof.
  destruct ev as [today text|today [|tok rest]]; unfold step.
  - destruct (handle_message_cases l today text) as [H|(e & q & He & Hq & H)];
      [left; exact H|].
    right. left. exists today, text, e, q. auto.
  - left. reflexivity.
  - destruct (add_salary_cases l today tok rest) as [H|(q & _ & H)]; [left; exact H|].
    right. right. exists today, tok, rest, q. rewrite H. auto.
Qed.

Lemma run_snoc `{pd : Pandas} l events ev : run l (events ++ [ev]) = step (run l events) ev.
Proof. unfold run. now rewrite fold_left_app. Qed.

(** X18: the ledger only grows at the bottom. Whatever messages and
    salary commands are handled, each sheet afterwards starts with the
    rows it had before, and together the sheets gain at most one row
    per update. *)
Theorem X18_ledger_is_append_only `{pd : Pandas} l events :
  expenses_ws l `prefix_of` expenses_ws (run l events)
  /\ salary_ws l `prefix_of` salary_ws (run l events)
  /\ (length (expenses_ws (run l events)) + length (salary_ws (run l events))
      <= length (expenses_ws l) + length (salary_ws l) + length events)%nat.
Proof.
  induction events as [|ev events IH] using rev_ind.
  - simpl. repeat split; [reflexivity|reflexivity|lia].
  - rewrite run_snoc, length_app. simpl.
    destruct IH as (He & Hs & Hlen).
    destruct (step_shape (run l events) ev)
      as [->|[(today & text & e & q & _ & _ & _ & ->)|(today & tok & rest & q & _ & ->)]];
      simpl.
    + repeat split; [exact He|exact Hs|lia].
    + repeat split; [now apply prefix_app_r|exact Hs|rewrite length_app; simpl; lia].
    + repeat split; [exact He|now apply prefix_app_r|rewrite length_app; simpl; lia].
Qed.


Lemma to_upper_code c :
  (Py.code c <? 128)%nat = true -> (Py.code (Py.to_upper c) <? 128)%nat = true.
Proof. destruct c as [[] [] [] [] [] [] [] []]; try discriminate; reflexivity. Qed.

Lemma to_lower_code c :
  (Py.code c <? 128)%nat = true -> (Py.code (Py.to_lower c) <? 128)%nat = true.
Proof. destruct c as [[] [] [] [] [] [] [] []]; try discriminate; reflexivity. Qed.

Lemma title_from_ascii b s : is_ascii s = true -> is_ascii (Py.title_from b s) = true.
Proof.
  unfold is_ascii. revert b. induction s as [|c s IH]; intros b; simpl; [reflexivity|].
  intros H. apply andb_prop in H as [Hc Hs].
  destruct (Py.is_upper c || Py.is_lower c); simpl.
  - rewrite (IH true Hs), andb_true_r.
    destruct b; [now apply to_lower_code|now apply to_upper_code].
  - now rewrite Hc, (IH false Hs).
Qed.

Lemma parsed_expense_row today text e q :
  is_calendar_date today ->
  is_ascii text = true ->
  parse_expense today text = Parsed e ->
  written_by_handler (mkexpense_row (e_date e) (e_category e) q
                                    (e_description e) (e_payment_method e)).
Proof.
  intros Htoday Hascii H. unfold written_by_handler. simpl.
  pose proof (parse_expense_inv today text e H) as (parts1 & parts2 & Hpm & Hd & Hf).
  assert (Hcash : e_payment_method e = "Cash").
  { rewrite parse_payment_method_total in Hpm. now injection Hpm as <- _. }
  assert (Hlow : Forall (fun tok => Py.all_chars
                           (fun c => negb (Py.is_upper c) && (Py.code c <? 128)%nat) tok
                         = true) parts2).
  { rewrite parse_payment_method_total in Hpm. injection Hpm as _ <-.
    assert (H1 : Forall (fun tok => Py.all_chars
                           (fun c => negb (Py.is_upper c) && (Py.code c <? 128)%nat) tok
                         = true)
                        (tokens_before_via (Py.split (Py.lower text)))).
    { unfold tokens_before_via. destruct (Py.index "via" _);
        [apply Forall_take|]; apply split_all_chars, all_chars_lower_ascii, Hascii. }
    apply parse_date_inv in Hd as (f & _ & [(_ & _ & ->)|(a & b & dd & mm & Hx)]);
      [exact H1|].
    destruct Hx as (_ & _ & _ & _ & _ & ->). now apply Forall_drop. }
  assert (Hdesc : Py.all_chars (fun c => negb (Py.is_upper c) && (Py.code c <? 128)%nat)
                               (e_description e) = true).
  { apply parse_fields_inv in Hf as (a & b & _ & _ & _ & _ & ->).
    destruct (2 <? length parts2)%nat; [|reflexivity].
    apply join_all_chars; [reflexivity|now apply Forall_drop]. }
  rewrite all_chars_both in Hdesc. apply andb_prop in Hdesc as [Hup Has].
  split; [exact Hcash|]. split; [|split; [|split; [exact Has|split; [exact Hup|]]]].
  - apply parse_fields_inv in Hf as (a & b & Ha & _ & -> & _).
    apply title_from_ascii. apply list_elem_of_lookup_2 in Ha.
    rewrite Forall_forall in Hlow. specialize (Hlow _ Ha).
    rewrite all_chars_both in Hlow. now apply andb_prop in Hlow as [_ Hx].
  - apply parse_fields_inv in Hf as (a & b & _ & _ & -> & _). apply title_from_idempotent.
  - apply parse_date_inv in Hd as (f & _ & [(_ & -> & _)|(a & b & dd & mm & Hx)]);
      [exact Htoday|].
    destruct Hx as (_ & _ & _ & Hv & -> & _). exact Hv.
Qed.

(** X19: an invariant of the expense sheet. If every row has the
    payment method "Cash", a category of ASCII characters in title
    case, a description of ASCII characters without capital letters
    and a calendar date, then this is still so after any sequence of
    messages of ASCII characters and salary commands handled on
    calendar dates. *)
Theorem X19_expense_sheet_invariant `{pd : Pandas} l events :
  Forall (fun ev => is_calendar_date (event_date ev)) events ->
  Forall ascii_event events ->
  Forall written_by_handler (expenses_ws l) ->
  Forall written_by_handler (expenses_ws (run l events)).
Proof.
  induction events as [|ev events IH] using rev_ind; intros Hev Has Hl; [exact Hl|].
  apply Forall_app in Hev as [Hev Hlast]. apply Forall_inv in Hlast.
  apply Forall_app in Has as [Has Hlast']. apply Forall_inv in Hlast'.
  rewrite run_snoc. specialize (IH Hev Has Hl).
  destruct (step_shape (run l events) ev)
    as [->|[(today & text & e & q & -> & Hp & _ & ->)|(today & tok & rest & q & _ & ->)]];
    simpl; [exact IH| |exact IH].
  apply Forall_app. split; [exact IH|]. constructor; [|constructor].
  now apply (parsed_expense_row today text).
Qed.

Lemma X19_witness :
  Forall (fun ev => is_calendar_date (event_date ev))
         [Message (mkdate 2024 3 9) "Food 250 Lunch via UPI";
          AddSalary (mkdate 2024 3 31) ["1000"]]
  /\ Forall ascii_event
            [Message (mkdate 2024 3 9) "Food 250 Lunch via UPI";
             AddSalary (mkdate 2024 3 31) ["1000"]]
  /\ Forall written_by_handler (expenses_ws (mkledger [] []))
  /\ Forall written_by_handler
       (expenses_ws (run (mkledger [] [])
                         [Message (mkdate 2024 3 9) "Food 250 Lunch via UPI";
                          AddSalary (mkdate 2024 3 31) ["1000"]])).
Proof.
  assert (H1 : Forall (fun ev => is_calendar_date (event_date ev))
                      [Message (mkdate 2024 3 9) "Food 250 Lunch via UPI";
                       AddSalary (mkdate 2024 3 31) ["1000"]]).
  { repeat constructor. }
  assert (H2 : Forall ascii_event
                      [Message (mkdate 2024 3 9) "Food 250 Lunch via UPI";
                       AddSalary (mkdate 2024 3 31) ["1000"]]).
  { repeat constructor. }
  assert (H3 : Forall written_by_handler (expenses_ws (mkledger [] []))) by constructor.
  split; [exact H1|]. split; [exact H2|]. split; [exact H3|].
  exact (X19_expense_sheet_invariant (mkledger [] []) _ H1 H2 H3).
Defined.

Lemma run_cash `{pd : Pandas} l events :
  Forall (fun r => Payment_Method r = "Cash") (expenses_ws l) ->
  Forall (fun r => Payment_Method r = "Cash") (expenses_ws (run l events)).
Proof.
  induction events as [|ev events IH] using rev_ind; intros Hl; [exact Hl|].
  rewrite run_snoc. specialize (IH Hl).
  destruct (step_shape (run l events) ev)
    as [->|[(today & text & e & q & -> & Hp & _ & ->)|(today & tok & rest & q & _ & ->)]];
    simpl; [exact IH| |exact IH].
  apply Forall_app. split; [exact IH|]. constructor; [|constructor]. simpl.
  apply parse_expense_inv in Hp as (parts1 & parts2 & Hpm & _ & _).
  rewrite parse_payment_method_total in Hpm. now injection Hpm as <- _.
Qed.

(** X20: starting from empty sheets, whatever is typed, the payment
    method report has no entry other than "Cash". *)
Theorem X20_payment_report_only_cash `{pd : Pandas} events :
  dom (payment_dist (run (mkledger [] []) events)) ⊆ {["Cash"]}.
Proof.
  assert (Hcash : Forall (fun r => Payment_Method r = "Cash")
                         (expenses_ws (run (mkledger [] []) events)))
    by (apply run_cash; constructor).
  set (df := expenses_ws (run (mkledger [] []) events)) in *.
  unfold payment_dist. fold df.
  intros k Hk. apply elem_of_dom, groupby_sum_key in Hk as (r & Hr & <-).
  rewrite Forall_forall in Hcash. apply elem_of_singleton. now apply Hcash.
Qed.


(** ** When the two specific replies are sent *)

Lemma parse_fields_cases parts :
  parse_fields parts
  = match parts with
    | first :: second :: rest =>
        match Num.float_of_string second with
        | Some amount =>
            Parsed (Py.title first, amount,
                    if (2 <? length parts)%nat then Py.join " " (drop 2 parts) else "")
        | None => Failed InvalidAmount
        end
    | _ => Failed (Unhandled IndexError)
    end.
Proof.
  destruct parts as [|first [|second rest]]; try reflexivity.
  unfold parse_fields, item, py_float, value_or_error. simpl.
  destruct (Num.float_of_string second); reflexivity.
Qed.

Lemma parse_date_invalid today parts :
  parse_date today parts = Failed InvalidDate <->
  exists first rest a b dd mm,
    parts = first :: rest /\ Py.split_on "/" first = [a; b]
    /\ Num.int_of_string a = Some dd /\ Num.int_of_string b = Some mm
    /\ fits_c_int mm = true /\ fits_c_int dd = true
    /\ valid_date (year today) mm dd = false.
Proof.
  split.
  - destruct parts as [|first rest]; [discriminate|].
    unfold parse_date, item. simpl.
    destruct (Py.has_char "/" first); simpl; [|discriminate].
    destruct (Py.split_on "/" first) as [|a [|b [|c l]]] eqn:Hs; simpl; try discriminate.
    unfold py_int, value_or_error.
    destruct (Num.int_of_string a) as [dd|] eqn:Ha; simpl; [|discriminate].
    destruct (Num.int_of_string b) as [mm|] eqn:Hb; simpl; [|discriminate].
    unfold datetime_date.
    destruct (fits_c_int mm) eqn:Hm, (fits_c_int dd) eqn:Hdd; simpl; try discriminate.
    destruct (valid_date (year today) mm dd) eqn:Hv; simpl; [discriminate|].
    intros _. exists first, rest, a, b, dd, mm. auto 10.
  - intros (first & rest & a & b & dd & mm & -> & Hs & Ha & Hb & Hm & Hdd & Hv).
    rewrite (parse_date_day_month today first rest a b dd mm Hs Ha Hb), Hm, Hdd, Hv.
    reflexivity.
Qed.

Lemma handle_message_reply_failure `{pd : Pandas} l today text f :
  f <> Unhandled StoreError ->
  snd (handle_message l today text) = reply_of_failure f <->
  parse_expense today text = Failed f.
Proof.
  intros Hf. unfold handle_message.
  destruct (parse_expense today text) as [e|f'].
  - split; [|discriminate].
    unfold expense_values, cell_of_float.
    destruct (e_amount e); simpl; destruct f as [| |[]]; try discriminate; contradiction.
  - simpl. split; [|now intros [= ->]].
    destruct f as [| |x], f' as [| |y]; simpl; try discriminate; try reflexivity.
    intros [= ->]. reflexivity.
Qed.

(** X21: the invalid date reply is sent exactly when the first kept
    token splits at its one [/] into two integer literals, both within
    the range of a C int, that do not form a calendar date in the year
    of the reference date. *)
Theorem X21_invalid_date_reply `{pd : Pandas} l today text :
  snd (handle_message l today text) = InvalidDateReply <->
  exists first rest a b dd mm,
    tokens_before_via (Py.split (Py.lower text)) = first :: rest
    /\ Py.split_on "/" first = [a; b]
    /\ Num.int_of_string a = Some dd /\ Num.int_of_string b = Some mm
    /\ fits_c_int mm = true /\ fits_c_int dd = true
    /\ valid_date (year today) mm dd = false.
Proof.
  rewrite (handle_message_reply_failure l today text InvalidDate) by discriminate.
  rewrite <- parse_date_invalid, parse_expense_stages.
  destruct (parse_date today (tokens_before_via (Py.split (Py.lower text))))
    as [[d parts]|f]; simpl.
  - rewrite parse_fields_cases.
    destruct parts as [|first [|second rest]]; simpl; try (split; discriminate).
    destruct (Num.float_of_string second); simpl; split; discriminate.
  - split; intros [= ->]; reflexivity.
Qed.

(** X22: the invalid amount reply is sent exactly when the date stage
    succeeds and leaves at least two tokens of which the second is not
    a float literal. *)
Theorem X22_invalid_amount_reply `{pd : Pandas} l today text :
  snd (handle_message l today text) = InvalidAmountReply <->
  exists d first second rest,
    parse_date today (tokens_before_via (Py.split (Py.lower text)))
    = Parsed (d, first :: second :: rest)
    /\ Num.float_of_string second = None.
Proof.
  rewrite (handle_message_reply_failure l today text InvalidAmount) by discriminate.
  rewrite parse_expense_stages.
  destruct (parse_date today (tokens_before_via (Py.split (Py.lower text))))
    as [[d parts]|f] eqn:Hd; simpl.
  - rewrite parse_fields_cases.
    destruct parts as [|first [|second rest]]; simpl.
    + split; [discriminate|]. intros (d' & a & b & r & H & _). discriminate.
    + split; [discriminate|]. intros (d' & a & b & r & H & _). discriminate.
    + destruct (Num.float_of_string second) eqn:Hf; simpl.
      * split; [discriminate|]. intros (d' & a & b & r & H & Hn).
        injection H as _ _ <- _. congruence.
      * split; [|reflexivity]. intros _. exists d, first, second, rest. auto.
  - split.
    + intros [= ->]. exfalso. revert Hd.
      destruct (tokens_before_via (Py.split (Py.lower text))) as [|first rest];
        [discriminate|].
      unfold parse_date, item. simpl.
      destruct (Py.has_char "/" first && _); [|discriminate].
      destruct (Py.split_on "/" first) as [|a [|b [|c l0]]]; simpl; try discriminate.
      unfold py_int, value_or_error.
      destruct (Num.int_of_string a); simpl; [|discriminate].
      destruct (Num.int_of_string b); simpl; [|discriminate].
      unfold datetime_date. destruct (negb _); [discriminate|].
      destruct (valid_date _ _ _); discriminate.
    + intros (d' & a & b & r & H & _). discriminate.
Qed.


(** ** Integer literals as amounts *)

Lemma digitpart_from_chars s : forall after acc n r,
  Num.digitpart_from after acc n s = Some r ->
  Py.all_chars digit_or_underscore s = true.
Proof.
  induction s as [|c s IH]; intros after acc n r; simpl; [reflexivity|].
  unfold digit_or_underscore at 1.
  destruct (Py.is_digit c); simpl; [apply IH|].
  destruct (Ascii.eqb c "_"); simpl; [|discriminate].
  destruct after; simpl; [apply IH|discriminate].
Qed.

Lemma digitpart_starts_with_digit s r :
  Num.digitpart s = Some r -> exists c s', s = String c s' /\ Py.is_digit c = true.
Proof.
  unfold Num.digitpart. destruct s as [|c s']; simpl; [discriminate|].
  destruct (Py.is_digit c) eqn:E; [eauto|].
  rewrite andb_false_r. discriminate.
Qed.

Lemma cut_at_none p s :
  Py.all_chars (fun c => negb (p c)) s = true -> Num.cut_at p s = (s, None).
Proof.
  induction s as [|c s IH]; simpl; [reflexivity|].
  intros H. apply andb_prop in H as [Hc Hs]. apply negb_true_iff in Hc.
  now rewrite Hc, (IH Hs).
Qed.

Lemma all_chars_impl (p q : ascii -> bool) s :
  (forall c, p c = true -> q c = true) ->
  Py.all_chars p s = true -> Py.all_chars q s = true.
Proof.
  intros Himp. induction s as [|c s IH]; simpl; [reflexivity|].
  intros H. apply andb_prop in H as [Hc Hs]. now rewrite (Himp c Hc), (IH Hs).
Qed.

Lemma digit_or_underscore_plain c :
  digit_or_underscore c = true ->
  negb (Num.is_point c) = true /\ negb (Num.is_exp_mark c) = true.
Proof. destruct c as [[] [] [] [] [] [] [] []]; try discriminate; split; reflexivity. Qed.

Lemma digit_not_word c s :
  Py.is_digit c = true ->
  String.eqb (Py.lower (String c s)) "inf" = false
  /\ String.eqb (Py.lower (String c s)) "infinity" = false
  /\ String.eqb (Py.lower (String c s)) "nan" = false.
Proof.
  intros H. simpl.
  destruct c as [[] [] [] [] [] [] [] []]; try discriminate H; repeat split; reflexivity.
Qed.

Lemma digitpart_from_nonneg s : forall after acc n v k,
  (0 <= acc)%Z -> Num.digitpart_from after acc n s = Some (v, k) -> (0 <= v)%Z.
Proof.
  induction s as [|c s IH]; intros after acc n v k Hacc; simpl.
  - destruct after; [|discriminate]. intros H. injection H as <- _. exact Hacc.
  - destruct (Py.is_digit c).
    + apply IH. unfold Num.digit_val. lia.
    + destruct (Ascii.eqb c "_" && after); [|discriminate]. now apply IH.
Qed.

Lemma int_literal_float s z :
  Num.int_of_string s = Some z ->
  exists (neg : bool) v,
    (0 <= v)%Z /\ z = (if neg then (- v)%Z else v)
    /\ Num.float_of_string s
       = Some (if neg then Num.opposite (Num.scale10 v 0) else Num.scale10 v 0).
Proof.
  unfold Num.int_of_string, Num.float_of_string.
  destruct (Num.take_sign (Py.strip s)) as [neg body].
  destruct (Num.digitpart body) as [[v n]|] eqn:Hd; [|discriminate].
  intros H. injection H as <-. exists neg, v.
  split; [apply (digitpart_from_nonneg body false 0%Z 0%nat v n); [lia|exact Hd]|].
  split; [reflexivity|].
  destruct (digitpart_starts_with_digit body _ Hd) as (c & s' & -> & Hc).
  destruct (digit_not_word c s' Hc) as (-> & -> & ->). simpl orb. cbv iota.
  pose proof (digitpart_from_chars _ _ _ _ _ Hd) as Hall.
  unfold Num.floatnumber.
  rewrite (cut_at_none Num.is_exp_mark)
    by (revert Hall; apply all_chars_impl; intros x Hx;
        now apply digit_or_underscore_plain in Hx).
  unfold Num.number.
  rewrite (cut_at_none Num.is_point)
    by (revert Hall; apply all_chars_impl; intros x Hx;
        now apply digit_or_underscore_plain in Hx).
  rewrite Hd. reflexivity.
Qed.

Example nearest_float_ex :
  nearest_float 250 = Num.Finite 250
  /\ nearest_float (-1250) = Num.Finite (-1250)
  /\ nearest_float 9007199254740993 = Num.Finite 9007199254740992
  /\ nearest_float (10 ^ 400) = Num.Inf false.
Proof. repeat split; vm_compute; reflexivity. Qed.

(** X23: every token that [int()] accepts is accepted by [float()]: a
    whole-number amount, signed or not, with or without underscores
    between digits, is read as the binary64 number nearest to that
    integer, which is another number from 2^53 + 1 on and infinite
    beyond the range; a zero is read as zero, with the sign written. *)
Theorem X23_integer_literal_is_float_literal s z :
  Num.int_of_string s = Some z ->
  (z <> 0%Z -> Num.float_of_string s = Some (nearest_float z))
  /\ (z = 0%Z ->
      Num.float_of_string s = Some (Num.Finite 0)
      \/ Num.float_of_string s = Some (Num.Finite (-0))).
Proof.
  intros H. apply int_literal_float in H as (neg & v & Hv & -> & ->).
  unfold nearest_float. destruct neg.
  - split.
    + intros Hne. destruct (Z.ltb_spec (- v) 0) as [_|Hge]; [|lia].
      now rewrite Z.opp_involutive.
    + intros Hz. assert (v = 0%Z) as -> by lia. right. reflexivity.
  - split.
    + intros _. destruct (Z.ltb_spec v 0) as [Hlt|_]; [lia|reflexivity].
    + intros ->. left. reflexivity.
Qed.

Lemma X23_witness :
  Num.int_of_string "9_007_199_254_740_993" = Some 9007199254740993%Z
  /\ 9007199254740993%Z <> 0%Z
  /\ Num.float_of_string "9_007_199_254_740_993" = Some (nearest_float 9007199254740993).
Proof.
  split; [vm_compute; reflexivity|]. split; [discriminate|].
  apply (proj1 (X23_integer_literal_is_float_literal "9_007_199_254_740_993"
                  9007199254740993%Z ltac:(vm_compute; reflexivity))).
  discriminate.
Defined.

(** ** The replies of the salary command *)

(** X24: [/addsalary] answers with the usage line exactly when it has
    no argument, and with the invalid amount reply exactly when its
    first argument is not a float literal; in both cases, and whenever
    the reply is not the salary-added reply, the ledger is unchanged. *)
Theorem X24_add_salary_replies `{pd : Pandas} l today args :
  (snd (add_salary l today args) = SalaryUsage <-> args = [])
  /\ (snd (add_salary l today args) = SalaryInvalidAmount <->
      exists tok rest, args = tok :: rest /\ Num.float_of_string tok = None)
  /\ ((forall a description b,
          snd (add_salary l today args) <> SalaryAdded a description b) ->
      fst (add_salary l today args) = l).
Proof.
  destruct args as [|tok rest].
  - simpl. split; [tauto|]. split; [|intros _; reflexivity].
    split; [discriminate|]. intros (t & r & H & _). discriminate.
  - unfold add_salary, item, py_float, value_or_error, salary_values, cell_of_float. simpl.
    destruct (Num.float_of_string tok) as [[q| |]|] eqn:Hf; simpl.
    + split; [split; discriminate|]. split.
      * split; [discriminate|]. intros (t & r & [= <- <-] & Hn). congruence.
      * intros H. exfalso. eapply H. reflexivity.
    + split; [split; discriminate|]. split; [|intros _; reflexivity].
      split; [discriminate|]. intros (t & r & [= <- <-] & Hn). congruence.
    + split; [split; discriminate|]. split; [|intros _; reflexivity].
      split; [discriminate|]. intros (t & r & [= <- <-] & Hn). congruence.
    + split; [split; discriminate|]. split; [|intros _; reflexivity].
      split; [intros _; exists tok, rest; auto|intros _; reflexivity].
Qed.

Lemma X24_witness :
  (forall a description b,
      snd (add_salary (mkledger [] []) (mkdate 2024 3 31) ["abc"; "bonus"])
      <> SalaryAdded a description b)
  /\ fst (add_salary (mkledger [] []) (mkdate 2024 3 31) ["abc"; "bonus"]) = mkledger [] [].
Proof.
  assert (H : forall a description b,
             snd (add_salary (mkledger [] []) (mkdate 2024 3 31) ["abc"; "bonus"])
             <> SalaryAdded a description b).
  { intros a description b. vm_compute. discriminate. }
  split; [exact H|].
  exact (proj2 (proj2 (X24_add_salary_replies (mkledger [] []) (mkdate 2024 3 31)
                         ["abc"; "bonus"])) H).
Defined.
